(** * SiegPy: the helper functions of the documentation notebooks

    The sources are Jupyter notebooks: their code cells define three helper
    functions ([print_errors], [SSE_errors], [scatter_plot]) and otherwise
    call the [siegpy] package, whose modules are not among the files.

    - [Py]: the effects of notebook code, a log of what was printed or
      plotted together with a value or a raised exception.
    - [Numpy]: the array operations the helpers call.
    - [Siegpy]: basis sets and states, as far as the helpers use them.
    - [TimePropagation]: [print_errors] and [SSE_errors].
    - [ScatterPlot]: both copies of [scatter_plot].
    - [Submission]: the files themselves, cell by cell. *)

From Stdlib Require Import List String Ascii Bool Arith PeanoNat Lia.
From Stdlib Require Import ZArith QArith Qabs DecimalString.
Import ListNotations.
Close Scope Q_scope.

Set Implicit Arguments.

(* ================================================================== *)
(** ** Effects: output log and exceptions *)
(* ================================================================== *)

Module Py.

(** The exceptions the helpers can raise. *)
Inductive exn : Type :=
| IndexError
| ValueError (msg : string)
| UnboundLocalError (name : string).

Inductive result (A : Type) : Type :=
| Ok (a : A)
| Raise (e : exn).

Arguments Ok {A} a.
Arguments Raise {A} e.

Section Monad.

(** [E] is the type of observable events (a printed line, a plot call). *)
Variable E : Type.

(** A computation yields the events it emitted, in order, and how it
    ended.  Events emitted before a raise stay in the log. *)
Definition M (A : Type) : Type := (list E * result A)%type.

Definition ret {A} (a : A) : M A := ([], Ok a).

Definition bind {A B} (m : M A) (f : A -> M B) : M B :=
  match m with
  | (o, Ok a) => let (o', r) := f a in (o ++ o', r)
  | (o, Raise e) => (o, Raise e)
  end.

Definition emit (e : E) : M unit := ([e], Ok tt).

Definition raise {A} (e : exn) : M A := ([], Raise e).

Definition lift {A} (r : result A) : M A := ([], r).

Definition out {A} (m : M A) : list E := fst m.

Definition res {A} (m : M A) : result A := snd m.

(** [for x in l: body], threading the loop-carried variables [s]. *)
Fixpoint for_each {A S} (l : list A) (body : A -> S -> M S) (s : S) : M S :=
  match l with
  | [] => ret s
  | x :: l' => bind (body x s) (for_each l' body)
  end.

End Monad.

Arguments ret {E A} a.
Arguments raise {E A} e.
Arguments lift {E A} r.
Arguments emit {E} e.

(** [enumerate(l)] *)
Definition enumerate {A} (l : list A) : list (nat * A) :=
  combine (seq 0 (List.length l)) l.

(** [l[i]] for a non-negative index: IndexError when out of range. *)
Definition index {A} (l : list A) (i : nat) : result A :=
  match nth_error l i with
  | Some x => Ok x
  | None => Raise IndexError
  end.

(** A result that is not a ValueError. *)
Definition no_value_error {A} (r : result A) : Prop :=
  match r with
  | Raise (ValueError _) => False
  | _ => True
  end.

End Py.

Import Py.

Declare Scope py_scope.
Delimit Scope py_scope with py.
Notation "x <- m ;; k" := (bind m (fun x => k))
  (at level 100, m at next level, right associativity) : py_scope.
Notation "m ;; k" := (bind m (fun _ => k))
  (at level 100, right associativity) : py_scope.

(** [s * n] on strings. *)
Fixpoint str_repeat (s : string) (n : nat) : string :=
  match n with
  | O => EmptyString
  | S n' => (s ++ str_repeat s n')%string
  end.

(** [str(n)] for a non-negative integer. *)
Definition str_of_nat (n : nat) : string :=
  NilEmpty.string_of_uint (Nat.to_uint n).

(* ================================================================== *)
(** ** numpy: the array operations the helpers call *)
(* ================================================================== *)

Module Numpy.

(** Scalars of the arrays: [F] stands for float64, [C] for complex128.
    Their arithmetic is numpy's own and stays abstract: every statement
    below holds for any interpretation of these operations. *)
Class Scalars (F C : Type) : Type := {
  f_zero : F;                      (* 0.0 *)
  f_two : F;                       (* 2, 2.0 *)
  f_add : F -> F -> F;
  f_sub : F -> F -> F;
  f_mul : F -> F -> F;
  f_div : F -> F -> F;             (* float division: inf or nan on 0.0, no exception *)
  f_neg : F -> F;
  f_log10 : F -> F;
  f_min : F -> F -> F;
  f_max : F -> F -> F;
  c_sub : C -> C -> C;
  c_abs : C -> F;                  (* modulus *)
  c_real : C -> F;
  c_imag : C -> F;
  linspace : F -> F -> nat -> list F   (* np.linspace(start, stop, num) *)
}.

Section Arrays.

Context {F C : Type} {Sc : Scalars F C}.

(** Two one-dimensional shapes broadcast when they are equal or one of
    them is 1. *)
Definition broadcastable (m n : nat) : bool :=
  (m =? n) || (m =? 1) || (n =? 1).

Fixpoint zip_sub (a b : list C) : list C :=
  match a, b with
  | x :: a', y :: b' => c_sub x y :: zip_sub a' b'
  | _, _ => []
  end.

Definition sub_rows (a b : list C) : list C :=
  if List.length a =? List.length b then zip_sub a b
  else match a, b with
       | [x], _ => map (fun y => c_sub x y) b
       | _, [y] => map (fun x => c_sub x y) a
       | _, _ => []
       end.

(** The message of the ValueError raised on shapes [(m,)] and [(n,)] that
    do not broadcast. *)
Definition broadcast_error (m n : nat) : string :=
  ("operands could not be broadcast together with shapes ("
   ++ str_of_nat m ++ ",) (" ++ str_of_nat n ++ ",) ")%string.

(** [a - b] on one-dimensional arrays. *)
Definition np_sub (a b : list C) : result (list C) :=
  if broadcastable (List.length a) (List.length b) then Ok (sub_rows a b)
  else Raise (ValueError (broadcast_error (List.length a) (List.length b))).

(** [np.abs(a)] *)
Definition np_abs (a : list C) : list F := map c_abs a.

(** [np.real(a)], [np.imag(a)], [np.log10(a)] *)
Definition np_real (a : list C) : list F := map c_real a.
Definition np_imag (a : list C) : list F := map c_imag a.
Definition np_log10 (a : list F) : list F := map f_log10 a.

(** [a.sum()] *)
Definition np_sum (a : list F) : F := fold_left f_add a f_zero.

(** The summands [d * (y[1:] + y[:-1]) / 2.0] of the trapezoidal rule. *)
Fixpoint trapz_terms (y : list F) (dx : F) : list F :=
  match y with
  | a :: (b :: _) as tl => f_div (f_mul dx (f_add b a)) f_two :: trapz_terms tl dx
  | _ => []
  end.

(** [np.trapz(y, dx=dx)] on a one-dimensional array. *)
Definition np_trapz (y : list F) (dx : F) : F := np_sum (trapz_terms y dx).

Definition zero_size_min : string :=
  "zero-size array to reduction operation minimum which has no identity".
Definition zero_size_max : string :=
  "zero-size array to reduction operation maximum which has no identity".

(** [np.min(a)], [np.max(a)]: ValueError on an empty array. *)
Definition np_min (a : list F) : result F :=
  match a with
  | [] => Raise (ValueError zero_size_min)
  | x :: a' => Ok (fold_left f_min a' x)
  end.

Definition np_max (a : list F) : result F :=
  match a with
  | [] => Raise (ValueError zero_size_max)
  | x :: a' => Ok (fold_left f_max a' x)
  end.

End Arrays.

End Numpy.

Import Numpy.

(* ================================================================== *)
(** ** siegpy: basis sets and states, as the helpers use them *)
(* ================================================================== *)

Module Siegpy.

(** Modelled from the spec: the type tag of an eigenstate (the siegpy
    package is not among the files).  The spec lists bound, resonant,
    antiresonant, continuum and unknown; the tutorial notebook adds the
    anti-bound Siegert states. *)
Inductive state_type : Type :=
| Bound | Antibound | Resonant | Antiresonant | Continuum | Unknown.

Definition state_type_eqb (a b : state_type) : bool :=
  match a, b with
  | Bound, Bound | Antibound, Antibound | Resonant, Resonant
  | Antiresonant, Antiresonant | Continuum, Continuum | Unknown, Unknown => true
  | _, _ => false
  end.

(** Modelled from the spec: the parity of a state. *)
Inductive parity_t : Type := Even | Odd.

Definition parity_eqb (a b : parity_t) : bool :=
  match a, b with
  | Even, Even | Odd, Odd => true
  | _, _ => false
  end.

Section States.

Context {F C : Type}.

(** Modelled from the spec: a potential, of which the helpers read the
    width only. *)
Record Potential : Type := {
  width : F;
  depth : F
}.

(** Modelled from the spec: an eigenstate with the attributes the
    notebooks read ([wavenumber], [energy], [parity], [virial],
    [potential]) and the assignable [grid]. *)
Record State : Type := {
  Siegert_type : state_type;
  parity : option parity_t;
  wavenumber : C;
  energy : C;
  virial : F;
  potential : Potential;
  grid : option (list F)
}.

(** [s.grid = xgrid] *)
Definition set_grid (xgrid : list F) (s : State) : State :=
  {| Siegert_type := Siegert_type s;
     parity := parity s;
     wavenumber := wavenumber s;
     energy := energy s;
     virial := virial s;
     potential := potential s;
     grid := Some xgrid |}.

(** Modelled from the spec: a basis set is a container of states, kept in
    order. *)
Definition BasisSet : Type := list State.

(** Modelled from the spec: [BasisSet()], the empty basis set. *)
Definition empty : BasisSet := [].

(** Modelled from the spec: [a + b] and [a += b], the set-like
    composition: the states of [a] followed by the states of [b]. *)
Definition add (a b : BasisSet) : BasisSet := a ++ b.

(** Modelled from the spec: [len(b)]. *)
Definition len (b : BasisSet) : nat := List.length b.

(** Modelled from the spec: the truth value of a basis set in a test is
    the one of a container with [__len__]: false exactly when empty. *)
Definition truthy (b : BasisSet) : bool := negb (len b =? 0).

Definition has_type (t : state_type) (s : State) : bool :=
  state_type_eqb (Siegert_type s) t.

Definition has_parity (p : parity_t) (s : State) : bool :=
  match parity s with
  | Some q => parity_eqb q p
  | None => false
  end.

(** Modelled from the spec: filtering by type. *)
Definition bounds (b : BasisSet) : BasisSet := filter (has_type Bound) b.
Definition antibounds (b : BasisSet) : BasisSet := filter (has_type Antibound) b.
Definition resonants (b : BasisSet) : BasisSet := filter (has_type Resonant) b.
Definition antiresonants (b : BasisSet) : BasisSet := filter (has_type Antiresonant) b.
Definition continuum (b : BasisSet) : BasisSet := filter (has_type Continuum) b.
Definition unknown (b : BasisSet) : BasisSet := filter (has_type Unknown) b.

(** Modelled from the spec: filtering by parity. *)
Definition even (b : BasisSet) : BasisSet := filter (has_parity Even) b.
Definition odd (b : BasisSet) : BasisSet := filter (has_parity Odd) b.

(** Modelled from the spec: the list attributes of a basis set. *)
Definition virials (b : BasisSet) : list F := map virial b.
Definition wavenumbers (b : BasisSet) : list C := map wavenumber b.
Definition energies (b : BasisSet) : list C := map energy b.

(** The methods of [SWPBasisSet] that [SSE_errors] calls.  Their code is
    not among the files: they are parameters, assumed to return. *)
Class Library (Wavefunction : Type) : Type := {
  from_file : string -> option nat -> BasisSet;
  find_Siegert_states : Potential -> F -> F -> F -> option F -> option (list F) -> BasisSet;
  find_continuum_states : Potential -> F -> F -> option (list F) -> BasisSet;
  exact_propagation : BasisSet -> Wavefunction -> list F -> list (list C);
  exact_Siegert_propagation : BasisSet -> Wavefunction -> list F -> list (list C);
  MLE_propagation : BasisSet -> Wavefunction -> list F -> list (list C);
  Berggren_propagation : BasisSet -> Wavefunction -> list F -> list (list C)
}.

End States.

Arguments Potential : clear implicits.
Arguments State : clear implicits.
Arguments BasisSet : clear implicits.
Arguments Library : clear implicits.

End Siegpy.

Import Siegpy.

(* ================================================================== *)
(** ** Time propagation notebook: [print_errors] and [SSE_errors] *)
(* ================================================================== *)

Module TimePropagation.

(** What the two functions write on the standard output. *)
Inductive stdout (F : Type) : Type :=
| Print (s : string)                          (* print(s) *)
| PrintRow (t : F) (abs_err rel_err : F).     (* print("{:.2f}   {: .3e}   {: .3e}".format(t, abs_err, rel_err)) *)

Arguments Print {F} s.
Arguments PrintRow {F} t abs_err rel_err.

Section Functions.

Context {F C : Type} {Sc : Scalars F C}.
Context {Wavefunction : Type} {Lib : Library F C Wavefunction}.

Local Open Scope py_scope.
Local Open Scope string_scope.

Definition title : string := "  t    abs. error   rel. error".
Definition line : string := str_repeat "-" (String.length title).

(** One pass of the loop of [print_errors]. *)
Definition print_errors_row (exact siegert_exp : list (list C)) (dx : F)
    (it : nat * F) (_ : unit) : M (stdout F) unit :=
  let (i, t) := it in
  exact_i <- lift (index exact i) ;;
  siegert_exp_i <- lift (index siegert_exp i) ;;
  diff <- lift (np_sub exact_i siegert_exp_i) ;;
  let abs_err := np_trapz (np_abs diff) dx in
  let norm := np_trapz (np_abs exact_i) dx in
  let rel_err := f_div abs_err norm in
  emit (PrintRow t abs_err rel_err).

(** [print_errors(exact, siegert_exp, dx)].  The body reads the name
    [time_grid], which is not a parameter: it is the global of the
    notebook, given here as the first argument. *)
Definition print_errors (time_grid : list F)
    (exact siegert_exp : list (list C)) (dx : F) : M (stdout F) unit :=
  emit (Print line) ;;
  emit (Print title) ;;
  emit (Print line) ;;
  for_each (enumerate time_grid) (print_errors_row exact siegert_exp dx) tt ;;
  emit (Print line) ;;
  emit (Print "").

(** [SSE_errors(filename, nres, k_max, h_k, nx, test_func, time_grid,
    exact=True, MLE=True, Ber=True)].  [global_time_grid] is the global
    that the calls to [print_errors] read.  The parameter [exact] is
    shadowed by the basis set of the same name, as in the source. *)
Definition SSE_errors (global_time_grid : list F)
    (filename : string) (nres : nat) (k_max h_k : F) (nx : nat)
    (test_func : Wavefunction) (time_grid : list F)
    (exact MLE Ber : bool) : M (stdout F) unit :=
  let siegerts := from_file filename (Some nres) in
  s0 <- lift (index siegerts 0) ;;
  let potential := potential s0 in
  let l := width potential in
  let xgrid := linspace (f_div (f_neg l) f_two) (f_div l f_two) nx in
  x1 <- lift (index xgrid 1) ;;
  x0 <- lift (index xgrid 0) ;;
  let dx := f_sub x1 x0 in
  let siegerts := map (set_grid xgrid) siegerts in
  let cont := find_continuum_states potential k_max h_k (Some xgrid) in
  let exact := add cont (bounds siegerts) in
  let exact_tp := exact_propagation exact test_func time_grid in
  (if truthy exact then
     let exact_S_tp := exact_Siegert_propagation siegerts test_func time_grid in
     emit (Print "         Exact Siegert") ;;
     print_errors global_time_grid exact_tp exact_S_tp dx
   else ret tt) ;;
  (if MLE then
     let MLE_tp := MLE_propagation siegerts test_func time_grid in
     emit (Print "              MLE") ;;
     print_errors global_time_grid exact_tp MLE_tp dx
   else ret tt) ;;
  (if Ber then
     let Ber_tp := Berggren_propagation siegerts test_func time_grid in
     emit (Print "            Berggren") ;;
     print_errors global_time_grid exact_tp Ber_tp dx
   else ret tt).

(** The table as specified: the errors at index [i], written with the
    rows [exact[i]] and [siegert_exp[i]]. *)
Definition abs_error (exact siegert_exp : list (list C)) (dx : F) (i : nat) : F :=
  np_trapz (np_abs (sub_rows (nth i exact []) (nth i siegert_exp []))) dx.

Definition rel_error (exact siegert_exp : list (list C)) (dx : F) (i : nat) : F :=
  f_div (abs_error exact siegert_exp dx i) (np_trapz (np_abs (nth i exact [])) dx).

Definition table_row (exact siegert_exp : list (list C)) (dx : F)
    (it : nat * F) : stdout F :=
  PrintRow (snd it) (abs_error exact siegert_exp dx (fst it))
           (rel_error exact siegert_exp dx (fst it)).

(** Both arrays have a row for every index of [time_grid], and the two
    rows at an index have shapes that broadcast. *)
Definition rows_available (time_grid : list F)
    (exact siegert_exp : list (list C)) : Prop :=
  forall i, i < List.length time_grid ->
    exists exact_i siegert_exp_i,
      nth_error exact i = Some exact_i /\
      nth_error siegert_exp i = Some siegert_exp_i /\
      broadcastable (List.length exact_i) (List.length siegert_exp_i) = true.

End Functions.

End TimePropagation.

(* ================================================================== *)
(** ** [scatter_plot], defined in two notebooks *)
(* ================================================================== *)

Module ScatterPlot.

(** The calls made to matplotlib, in order.  matplotlib itself is outside
    the files: its calls are recorded, and assumed to return.  That leaves
    out the runs in which one of them raises, as [fig.savefig] does on a
    file name it cannot write. *)
Inductive plot_event (F : Type) : Type :=
| Figure                                   (* plt.figure() *)
| AddSubplot (code : nat)                  (* fig.add_subplot(111) *)
| AxHLine                                  (* ax.axhline(0, color='black', lw=1) *)
| AxVLine                                  (* ax.axvline(0, color='black', lw=1) *)
| Scatter (re im : list F)                 (* ax.scatter(np.real(plot_data), np.imag(plot_data), *)
          (vmin vmax : F) (virials : list F)   (*   c=plt.cm.CMRmap(norm(virials)),           *)
          (marker label : string)              (*   marker=markers[i], s=30, label=...)        *)
| Colorbar (vmin vmax : F) (label : string)    (* plt.colorbar(m, label=...) *)
| SetXLabel (s : string)
| SetYLabel (s : string)
| SetXLim (lim : F * F)
| SetXTickLabels
| SetYLim (lim : F * F)
| SetYTickLabels
| SetTitle (s : string)
| SaveFig (file : string)
| Legend
| Show.

Arguments Figure {F}.
Arguments AddSubplot {F} code.
Arguments AxHLine {F}.
Arguments AxVLine {F}.
Arguments Scatter {F} re im vmin vmax virials marker label.
Arguments Colorbar {F} vmin vmax label.
Arguments SetXLabel {F} s.
Arguments SetYLabel {F} s.
Arguments SetXLim {F} lim.
Arguments SetXTickLabels {F}.
Arguments SetYLim {F} lim.
Arguments SetYTickLabels {F}.
Arguments SetTitle {F} s.
Arguments SaveFig {F} file.
Arguments Legend {F}.
Arguments Show {F}.

Section Functions.

Context {F C : Type} {Sc : Scalars F C}.

Local Open Scope py_scope.
Local Open Scope string_scope.

(** The message of the ValueError raised on a bad [data_kwd]. *)
Definition data_kwd_error (data_kwd : string) : string :=
  "data_kwd must be equal to 'wavenumbers' or 'energies' (here '"
  ++ data_kwd ++ "')".

Definition markers : list string := ["o"; "s"; "d"; "^"].

(** [plot_data != []] *)
Definition nonempty {A} (l : list A) : bool :=
  match l with
  | [] => false
  | _ :: _ => true
  end.

(** The states of [b] that are plotted. *)
Definition states_to_plot (show_unknown : bool) (b : BasisSet F C) : BasisSet F C :=
  let to_plot := add (add (bounds b) (resonants b)) (continuum b) in
  if show_unknown || (len (unknown b) =? len b)%nat
  then add to_plot (unknown b)
  else to_plot.

(** The [if]/[elif]/[else] on [data_kwd]: the axis label and the data. *)
Definition select_data (data_kwd : string) (to_plot : BasisSet F C)
    : result (string * list C) :=
  if (data_kwd =? "wavenumbers")%string then Ok ("k", rev (wavenumbers to_plot))
  else if (data_kwd =? "energies")%string then Ok ("E", rev (energies to_plot))
  else Raise (ValueError (data_kwd_error data_kwd)).

(** One pass of the loop over [enumerate(basissets)].  The loop-carried
    variable is [data_label], unbound before the first pass. *)
Definition plot_basis (data_kwd : string) (show_unknown : bool) (vmin vmax : F)
    (ib : nat * BasisSet F C) (_ : option string)
    : M (plot_event F) (option string) :=
  let (i, b) := ib in
  let to_plot := states_to_plot show_unknown b in
  let virials := np_log10 (rev (virials to_plot)) in
  sel <- lift (select_data data_kwd to_plot) ;;
  let (data_label, plot_data) := sel : string * list C in
  (if nonempty plot_data then
     marker <- lift (index markers i) ;;
     emit (Scatter (np_real plot_data) (np_imag plot_data) vmin vmax virials
                   marker ("$V_" ++ str_of_nat (i + 1) ++ "$"))
   else ret tt) ;;
  ret (Some data_label).

(** [if x is not None: f(x)] *)
Definition when_given {A} (x : option A) (f : A -> plot_event F)
    : M (plot_event F) unit :=
  match x with
  | Some a => emit (f a)
  | None => ret tt
  end.

(** [allstates = BasisSet()] followed by [allstates += b] for each [b]. *)
Definition all_states (basissets : list (BasisSet F C)) : BasisSet F C :=
  fold_left add basissets empty.

(** [data_kwd] is neither ['wavenumbers'] nor ['energies']. *)
Definition bad_data_kwd (data_kwd : string) : Prop :=
  data_kwd <> "wavenumbers" /\ data_kwd <> "energies".

(** The part that both copies share: everything up to the title. *)
Definition scatter_plot_axes (data_kwd : string) (basissets : list (BasisSet F C))
    (xlim ylim : option (F * F)) (title : option string)
    (show_unknown : bool) : M (plot_event F) unit :=
  emit Figure ;;
  emit (AddSubplot 111) ;;
  emit AxHLine ;;
  emit AxVLine ;;
  let allstates := all_states basissets in
  vmin <- lift (np_min (np_log10 (virials allstates))) ;;
  vmax <- lift (np_max (np_log10 (virials allstates))) ;;
  data_label <- for_each (enumerate basissets)
                  (plot_basis data_kwd show_unknown vmin vmax) None ;;
  emit (Colorbar vmin vmax "$log_{10}$(|virial|)") ;;
  data_label <- lift (match data_label with
                      | Some d => Ok d
                      | None => Raise (UnboundLocalError "data_label")
                      end) ;;
  emit (SetXLabel ("Re[$" ++ data_label ++ "$]")) ;;
  emit (SetYLabel ("Im[$" ++ data_label ++ "$]")) ;;
  when_given xlim SetXLim ;;
  emit SetXTickLabels ;;
  when_given ylim SetYLim ;;
  emit SetYTickLabels ;;
  when_given title SetTitle.

End Functions.

(** The copy of the notebook on Gaussian potentials: the figure is saved
    before the legend is drawn. *)
Module GaussianPotentials.
Section Copy.
Context {F C : Type} {Sc : Scalars F C}.
Local Open Scope py_scope.

Definition scatter_plot (data_kwd : string) (basissets : list (BasisSet F C))
    (xlim ylim : option (F * F)) (title file_save : option string)
    (show_unknown : bool) : M (plot_event F) unit :=
  scatter_plot_axes data_kwd basissets xlim ylim title show_unknown ;;
  when_given file_save SaveFig ;;
  emit Legend ;;
  emit Show.

End Copy.
End GaussianPotentials.

(** The copy of the notebook on the Woods-Saxon potential: the legend is
    drawn before the figure is saved. *)
Module WoodsSaxon.
Section Copy.
Context {F C : Type} {Sc : Scalars F C}.
Local Open Scope py_scope.

Definition scatter_plot (data_kwd : string) (basissets : list (BasisSet F C))
    (xlim ylim : option (F * F)) (title file_save : option string)
    (show_unknown : bool) : M (plot_event F) unit :=
  scatter_plot_axes data_kwd basissets xlim ylim title show_unknown ;;
  emit Legend ;;
  when_given file_save SaveFig ;;
  emit Show.

End Copy.
End WoodsSaxon.

End ScatterPlot.

(* ================================================================== *)
(** ** The files, cell by cell *)
(* ================================================================== *)

Module Submission.

Local Open Scope string_scope.

(** A top-level statement of a code cell, reduced to its kind, the names
    it binds and the dotted names of the functions called inside it, in
    source order.  A callee that is itself the result of a call is written
    with [()], a method of a string literal as [str.]. *)
Inductive stmt : Type :=
| Import (modules : list string)
| ImportFrom (module : string) (names : list string)
| FunctionDef (name : string) (calls : list string)
| ClassDef (name : string)
| Assign (targets : list string) (calls : list string)
| Expr (calls : list string)
| For (calls : list string)
| If (calls : list string)
| Assert (calls : list string).

(** A cell of a notebook (nbformat 4): its [cell_type] and, for a code
    cell, the statements of its [source]. *)
Inductive cell : Type :=
| Markdown
| Code (body : list stmt).

Record notebook : Type := {
  title : string;
  cells : list cell
}.

(** What a file holds: notebook documents (some files hold two, one after
    the other) or the sections of an ini-style configuration. *)
Inductive content : Type :=
| Notebooks (docs : list notebook)
| Config (sections : list string).

Record file : Type := {
  path : string;
  holds : content
}.

(** [src/unnamed/part_000], the notebook titled "Time propagation: error estimation of the Siegert states expansions". *)
Definition time_propagation_errors : notebook := {|
  title := "Time propagation: error estimation of the Siegert states expansions";
  cells := [
    Markdown;
    Markdown;
    Code [ImportFrom "siegpy" ["SWPBasisSet"; "Gaussian"; "SWPotential"];
        Import ["numpy"]];
    Markdown;
    Code [FunctionDef "print_errors" ["len"; "print"; "print"; "print"; "enumerate"; "np.trapz"; "np.abs"; "np.trapz"; "np.abs"; "print"; "str.format"; "print"; "print"];
        FunctionDef "SSE_errors" ["SWPBasisSet.from_file"; "np.linspace"; "SWPBasisSet.find_continuum_states"; "exact.exact_propagation"; "siegerts.exact_Siegert_propagation"; "print"; "print_errors"; "siegerts.MLE_propagation"; "print"; "print_errors"; "siegerts.Berggren_propagation"; "print"; "print_errors"]];
    Markdown;
    Code [Assign ["filename"] [];
        Assign ["siegerts"] ["SWPBasisSet.from_file"]];
    Markdown;
    Markdown;
    Code [Assign ["l"] [];
        Assign ["sigma"] [];
        Assign ["x_c"] [];
        Assign ["k_0"] [];
        Assign ["gauss_small_momentum"] ["Gaussian"]];
    Markdown;
    Code [Assign ["time_grid"] [];
        Expr ["SSE_errors"]];
    Markdown;
    Code [Expr ["SSE_errors"]];
    Markdown;
    Code [Expr ["SSE_errors"]];
    Markdown;
    Markdown;
    Markdown;
    Code [Assign ["k_0"] [];
        Assign ["gauss_large_momentum"] ["Gaussian"]];
    Markdown;
    Code [Expr ["SSE_errors"]];
    Markdown;
    Code [Expr ["SSE_errors"]];
    Markdown;
    Code [Expr ["SSE_errors"]];
    Markdown;
    Markdown]
|}.

(** [src/unnamed/part_000], the notebook titled "Symbolic Woods-Saxon potential". *)
Definition woods_saxon_potential : notebook := {|
  title := "Symbolic Woods-Saxon potential";
  cells := [
    Markdown;
    Markdown;
    Markdown;
    Markdown;
    Code [Import ["numpy"];
        Import ["matplotlib.pyplot"];
        Import ["matplotlib.colors"];
        ImportFrom "matplotlib" ["cm"];
        ImportFrom "siegpy" ["SWPotential"; "Hamiltonian"; "BasisSet"; "ErfKGCoordMap"; "WoodsSaxonPotential"]];
    Markdown;
    Markdown;
    Code [Assign ["xmax"] [];
        Assign ["xgrid"] ["np.linspace"];
        Assign ["V0"] [];
        Assign ["l"] ["np.sqrt"];
        Assign ["lbda1"] [];
        Assign ["sym_pot_ws1"] ["WoodsSaxonPotential"];
        Expr ["sym_pot_ws1.plot"]];
    Markdown;
    Code [Assign ["cm_ws"] ["ErfKGCoordMap"];
        Assign ["ham_ws1"] ["Hamiltonian"];
        Assign ["basis_ws1"] ["ham_ws1.solve"]];
    Markdown;
    Code [Assign ["re_e_max"] [];
        Assign ["im_e_min"] [];
        Assign ["im_k_max"] ["np.sqrt"];
        Assign ["re_k_max"] ["np.sqrt"];
        Assign ["re_e_lim"] [];
        Assign ["im_e_lim"] [];
        Assign ["re_k_lim"] [];
        Assign ["im_k_lim"] [];
        Expr ["basis_ws1.plot_energies"];
        Expr ["basis_ws1.plot_wavenumbers"];
        Expr ["basis_ws1.plot_wavefunctions"]];
    Markdown;
    Markdown;
    Markdown;
    Code [Assign ["lbda2"] [];
        Assign ["sym_pot_ws2"] ["WoodsSaxonPotential"];
        Expr ["sym_pot_ws2.plot"]];
    Markdown;
    Code [Assign ["ham_ws2"] ["Hamiltonian"];
        Assign ["basis_ws2"] ["ham_ws2.solve"]];
    Markdown;
    Code [Expr ["basis_ws2.plot_energies"];
        Expr ["basis_ws2.plot_wavenumbers"];
        Expr ["basis_ws2.plot_wavefunctions"]];
    Markdown;
    Markdown;
    Markdown;
    Code [Assign ["lbda3"] [];
        Assign ["sym_pot_ws3"] ["WoodsSaxonPotential"];
        Expr ["sym_pot_ws3.plot"]];
    Markdown;
    Code [Assign ["ham_ws3"] ["Hamiltonian"];
        Assign ["basis_ws3"] ["ham_ws3.solve"]];
    Code [Expr ["basis_ws3.plot_energies"];
        Expr ["basis_ws3.plot_wavenumbers"];
        Expr ["basis_ws3.plot_wavefunctions"]];
    Markdown;
    Markdown;
    Markdown;
    Code [Assign ["sw_pot"] ["SWPotential"];
        Assign ["ham_sw"] ["Hamiltonian"];
        Assign ["basis_sw"] ["ham_sw.solve"]];
    Code [Expr ["basis_sw.plot_energies"];
        Expr ["basis_sw.plot_wavenumbers"];
        Expr ["basis_sw.plot_wavefunctions"]];
    Markdown;
    Markdown;
    Markdown;
    Markdown;
    Code [FunctionDef "scatter_plot" ["plt.figure"; "fig.add_subplot"; "ax.axhline"; "ax.axvline"; "BasisSet"; "np.min"; "np.log10"; "np.max"; "np.log10"; "matplotlib.colors.Normalize"; "enumerate"; "len"; "len"; "np.log10"; "ValueError"; "str.format"; "plt.cm.CMRmap"; "norm"; "ax.scatter"; "np.real"; "np.imag"; "str.format"; "cm.ScalarMappable"; "m.set_array"; "plt.colorbar"; "ax.set_xlabel"; "str.format"; "ax.set_ylabel"; "str.format"; "ax.set_xlim"; "ax.set_xticklabels"; "ax.get_xticks"; "ax.set_ylim"; "ax.set_yticklabels"; "ax.get_yticks"; "ax.set_title"; "plt.legend"; "fig.savefig"; "plt.show"]];
    Markdown;
    Code [Assign ["data_kwd"] [];
        If [];
        Assign ["basissets"] [];
        Expr ["scatter_plot"]];
    Markdown;
    Markdown;
    Markdown;
    Code [Assign ["exact_siegerts"] ["BasisSet.from_file"]];
    Markdown;
    Code [Assign ["basissets"] [];
        For ["enumerate"; "BasisSet"; "plt.scatter"; "len"; "np.real"];
        Expr ["plt.xlim"; "len"];
        Expr ["plt.xlabel"];
        Expr ["plt.ylabel"];
        Expr ["plt.show"]];
    Markdown;
    Markdown;
    Code [Assign ["i_max"] [];
        Assign ["header"] [];
        For ["range"; "len"; "str.format"];
        Expr ["print"];
        Expr ["print"; "len"];
        Assign ["energies"] ["np.array"; "np.sort"];
        For ["range"; "str.format"; "str.format"; "print"]];
    Markdown]
|}.

(** [src/doc/notebooks/convergence_exact_strength_function.ipynb], the notebook titled "Convergence of the exact strength function". *)
Definition convergence_exact_strength_function : notebook := {|
  title := "Convergence of the exact strength function";
  cells := [
    Markdown;
    Markdown;
    Code [ImportFrom "siegpy" ["SWPBasisSet"; "Rectangular"; "Gaussian"; "SWPotential"];
        Import ["numpy"];
        Import ["matplotlib.pyplot"]];
    Markdown;
    Code [Assign ["V0"] [];
        Assign ["l"] ["np.sqrt"];
        Assign ["potential"] ["SWPotential"]];
    Markdown;
    Code [Assign ["re_kmax"] [];
        Assign ["im_kmax"] [];
        Assign ["re_hk"] [];
        Assign ["im_hk"] [];
        Assign ["siegerts"] ["SWPBasisSet.find_Siegert_states"]];
    Markdown;
    Code [Assign ["hk"] [];
        Assign ["kmax"] [];
        Assign ["continuum"] ["SWPBasisSet.find_continuum_states"];
        Assign ["exact"] []];
    Markdown;
    Code [Assign ["xc"] [];
        Assign ["a"] [];
        Assign ["sigma"] [];
        Assign ["gauss"] ["Gaussian"];
        Assign ["rect"] ["Rectangular.from_width_and_center"]];
    Markdown;
    Code [Assign ["hk"] [];
        Assign ["kmax"] [];
        Assign ["kgrid"] ["np.arange"]];
    Markdown;
    Code [Assign ["SF_MLE_gauss"] ["siegerts.MLE_strength_function"];
        Assign ["SF_exact_gauss"] ["exact.exact_strength_function"];
        Assign ["SF_exact_gauss_other"] ["siegerts.exact_strength_function_OTF"]];
    Code [Expr ["plt.plot"];
        Expr ["plt.plot"];
        Expr ["plt.plot"];
        Expr ["plt.xlabel"];
        Expr ["plt.ylabel"];
        Expr ["plt.title"];
        Expr ["plt.legend"];
        Expr ["plt.show"]];
    Markdown;
    Markdown;
    Code [Assign ["hk"] [];
        Assign ["results_hk"] [];
        For ["print"; "SWPBasisSet.find_continuum_states"; "str"; "exact.exact_strength_function"]];
    Code [Assign ["MLE_g"] ["siegerts.MLE_strength_function"];
        Expr ["plt.plot"];
        For ["results_hk.items"; "plt.plot"];
        Expr ["plt.legend"];
        Expr ["plt.show"]];
    Markdown;
    Code [Assign ["kmax"] [];
        Assign ["results_kmax_1"] [];
        For ["print"; "SWPBasisSet.find_continuum_states"; "str"; "exact.exact_strength_function"]];
    Code [Expr ["plt.plot"];
        For ["results_kmax_1.items"; "plt.plot"];
        Expr ["plt.legend"];
        Expr ["plt.show"]];
    Code [For ["results_kmax_1.items"; "plt.plot"; "abs"];
        Expr ["plt.title"];
        Expr ["plt.yscale"];
        Expr ["plt.legend"];
        Expr ["plt.show"]];
    Code [For ["results_kmax_1.items"; "plt.plot"; "abs"];
        Expr ["plt.plot"];
        Expr ["plt.title"];
        Expr ["plt.yscale"];
        Expr ["plt.legend"];
        Expr ["plt.show"]];
    Markdown;
    Code [Assign ["kmax"] [];
        Assign ["results_kmax_2"] [];
        For ["print"; "SWPBasisSet.find_continuum_states"; "str"; "exact.exact_strength_function"]];
    Code [Expr ["plt.plot"];
        For ["results_kmax_2.items"; "plt.plot"];
        Expr ["plt.legend"];
        Expr ["plt.show"]];
    Code [For ["results_kmax_2.items"; "plt.plot"; "abs"];
        Expr ["plt.plot"];
        Expr ["plt.title"];
        Expr ["plt.yscale"];
        Expr ["plt.legend"];
        Expr ["plt.show"]];
    Code [For ["results_kmax_2.items"; "plt.plot"; "abs"];
        Expr ["plt.plot"];
        Expr ["plt.title"];
        Expr ["plt.yscale"];
        Expr ["plt.legend"];
        Expr ["plt.show"]];
    Markdown;
    Code [Assign ["kmax"] [];
        Assign ["results_kmax_3"] [];
        For ["print"; "SWPBasisSet.find_continuum_states"; "str"; "exact.exact_strength_function"]];
    Code [Expr ["plt.plot"];
        For ["results_kmax_3.items"; "plt.plot"];
        Expr ["plt.legend"];
        Expr ["plt.show"]];
    Code [For ["results_kmax_3.items"; "plt.plot"; "abs"];
        Expr ["plt.plot"];
        Expr ["plt.title"];
        Expr ["plt.yscale"];
        Expr ["plt.legend"];
        Expr ["plt.show"]];
    Code [For ["results_kmax_3.items"; "plt.plot"; "abs"];
        Expr ["plt.plot"];
        Expr ["plt.title"];
        Expr ["plt.yscale"];
        Expr ["plt.legend"];
        Expr ["plt.show"]];
    Markdown;
    Code [Assign ["kmax"] [];
        Assign ["hk"] [];
        Assign ["results_eta_1"] [];
        Assign ["continuum"] ["SWPBasisSet.find_continuum_states"];
        Assign ["exact"] [];
        For ["print"; "str"; "exact.exact_strength_function"]];
    Code [Expr ["plt.plot"];
        For ["results_eta_1.items"; "plt.plot"];
        Expr ["plt.ylim"];
        Expr ["plt.legend"];
        Expr ["plt.show"]];
    Code [For ["results_eta_1.items"; "plt.plot"; "abs"];
        Expr ["plt.plot"];
        Expr ["plt.title"];
        Expr ["plt.yscale"];
        Expr ["plt.legend"];
        Expr ["plt.show"]];
    Code [For ["results_eta_1.items"; "plt.plot"; "abs"];
        Expr ["plt.plot"];
        Expr ["plt.title"];
        Expr ["plt.yscale"];
        Expr ["plt.legend"];
        Expr ["plt.show"]];
    Markdown;
    Code [Assign ["kmax"] [];
        Assign ["hk"] [];
        Assign ["results_eta_2"] [];
        Assign ["continuum"] ["SWPBasisSet.find_continuum_states"];
        Assign ["exact"] [];
        For ["print"; "str"; "exact.exact_strength_function"]];
    Code [Expr ["plt.plot"];
        For ["results_eta_2.items"; "plt.plot"];
        Expr ["plt.ylim"];
        Expr ["plt.legend"];
        Expr ["plt.show"]];
    Code [For ["results_eta_2.items"; "plt.plot"; "abs"];
        Expr ["plt.plot"];
        Expr ["plt.title"];
        Expr ["plt.yscale"];
        Expr ["plt.legend"];
        Expr ["plt.show"]];
    Code [For ["results_eta_2.items"; "plt.plot"; "abs"];
        Expr ["plt.plot"];
        Expr ["plt.title"];
        Expr ["plt.yscale"];
        Expr ["plt.legend"];
        Expr ["plt.show"]];
    Markdown;
    Code [Assign ["kmax"] [];
        Assign ["hk"] [];
        Assign ["eta"] [];
        Assign ["results_factor_1"] [];
        For ["print"; "SWPBasisSet.find_continuum_states"; "str"; "exact.exact_strength_function"]];
    Code [Expr ["plt.plot"];
        For ["results_factor_1.items"; "plt.plot"];
        Expr ["plt.plot"];
        Expr ["plt.legend"];
        Expr ["plt.show"]];
    Code [For ["results_factor_1.items"; "plt.plot"; "abs"];
        Expr ["plt.plot"];
        Expr ["plt.title"];
        Expr ["plt.yscale"];
        Expr ["plt.legend"];
        Expr ["plt.show"]];
    Code [For ["results_factor_1.items"; "plt.plot"; "abs"];
        Expr ["plt.plot"];
        Expr ["plt.title"];
        Expr ["plt.yscale"];
        Expr ["plt.legend"];
        Expr ["plt.show"]];
    Markdown;
    Code [Assign ["kmax"] [];
        Assign ["hk"] [];
        Assign ["eta"] [];
        Assign ["results_factor_2"] [];
        For ["print"; "SWPBasisSet.find_continuum_states"; "str"; "exact.exact_strength_function"]];
    Code [Expr ["plt.plot"];
        For ["results_factor_2.items"; "plt.plot"];
        Expr ["plt.plot"];
        Expr ["plt.legend"];
        Expr ["plt.show"]];
    Code [For ["results_factor_2.items"; "plt.plot"; "abs"];
        Expr ["plt.plot"];
        Expr ["plt.title"];
        Expr ["plt.yscale"];
        Expr ["plt.legend"];
        Expr ["plt.show"]];
    Code [For ["results_factor_2.items"; "plt.plot"; "abs"];
        Expr ["plt.plot"];
        Expr ["plt.title"];
        Expr ["plt.yscale"];
        Expr ["plt.legend"];
        Expr ["plt.show"]];
    Markdown;
    Code [Assign ["MLE_g"] ["siegerts.MLE_strength_function"];
        Assign ["sf_g"] ["siegerts.exact_strength_function_OTF"];
        Expr ["plt.plot"];
        Expr ["plt.plot"];
        Expr ["plt.legend"];
        Expr ["plt.show"]];
    Markdown;
    Code [Assign ["MLE_r"] ["siegerts.MLE_strength_function"];
        Assign ["sf_r"] ["siegerts.exact_strength_function_OTF"];
        Expr ["plt.plot"];
        Expr ["plt.plot"];
        Expr ["plt.legend"];
        Expr ["plt.show"]];
    Markdown;
    Code [Assign ["MLE_g"] ["siegerts.MLE_strength_function"];
        Assign ["sf_1"] ["siegerts.exact_strength_function_OTF"];
        Assign ["sf_2"] ["siegerts.exact_strength_function_OTF"];
        Assign ["sf_3"] ["siegerts.exact_strength_function_OTF"];
        Assign ["sf_4"] ["siegerts.exact_strength_function_OTF"];
        Assign ["sf_5"] ["siegerts.exact_strength_function_OTF"]];
    Code [For ["plt.plot"; "abs"];
        Expr ["plt.plot"];
        Expr ["plt.title"];
        Expr ["plt.yscale"];
        Expr ["plt.show"]];
    Code [For ["plt.plot"; "abs"];
        Expr ["plt.plot"];
        Expr ["plt.title"];
        Expr ["plt.yscale"];
        Expr ["plt.show"]];
    Markdown;
    Code [Assign ["tol"] [];
        Assign ["eta"] [];
        Assign ["result_hk_1"] [];
        For ["print"; "str"; "siegerts.exact_strength_function_OTF"]];
    Code [Expr ["plt.plot"];
        For ["result_hk_1.items"; "plt.plot"];
        Expr ["plt.plot"];
        Expr ["plt.ylim"];
        Expr ["plt.legend"];
        Expr ["plt.show"]];
    Code [For ["result_hk_1.items"; "plt.plot"; "abs"];
        Expr ["plt.plot"];
        Expr ["plt.title"];
        Expr ["plt.yscale"];
        Expr ["plt.legend"];
        Expr ["plt.show"]];
    Code [For ["result_hk_1.items"; "plt.plot"; "abs"];
        Expr ["plt.plot"];
        Expr ["plt.title"];
        Expr ["plt.yscale"];
        Expr ["plt.legend"];
        Expr ["plt.show"]];
    Markdown;
    Code [Assign ["eta"] [];
        Assign ["MLE_g"] ["siegerts.MLE_strength_function"];
        Assign ["result_hk_2"] [];
        For ["print"; "str"; "siegerts.exact_strength_function_OTF"]];
    Code [Expr ["plt.plot"];
        For ["result_hk_2.items"; "plt.plot"];
        Expr ["plt.plot"];
        Expr ["plt.ylim"];
        Expr ["plt.legend"];
        Expr ["plt.show"]];
    Code [For ["result_hk_2.items"; "plt.plot"; "abs"];
        Expr ["plt.plot"];
        Expr ["plt.title"];
        Expr ["plt.yscale"];
        Expr ["plt.legend"];
        Expr ["plt.show"]];
    Code [For ["result_hk_2.items"; "plt.plot"; "abs"];
        Expr ["plt.plot"];
        Expr ["plt.title"];
        Expr ["plt.yscale"];
        Expr ["plt.legend"];
        Expr ["plt.show"]];
    Markdown;
    Code [Assign ["hk"] [];
        Assign ["eta"] [];
        Assign ["MLE_g"] ["siegerts.MLE_strength_function"];
        Assign ["result_tol_1"] [];
        For ["print"; "str"; "siegerts.exact_strength_function_OTF"]];
    Code [Expr ["plt.plot"];
        For ["result_tol_1.items"; "plt.plot"];
        Expr ["plt.plot"];
        Expr ["plt.ylim"];
        Expr ["plt.legend"];
        Expr ["plt.show"]];
    Code [For ["result_tol_1.items"; "plt.plot"; "abs"];
        Expr ["plt.plot"];
        Expr ["plt.title"];
        Expr ["plt.yscale"];
        Expr ["plt.legend"];
        Expr ["plt.show"]];
    Code [For ["result_tol_1.items"; "plt.plot"; "abs"];
        Expr ["plt.plot"];
        Expr ["plt.title"];
        Expr ["plt.yscale"];
        Expr ["plt.legend"];
        Expr ["plt.show"]];
    Markdown;
    Code [Assign ["hk"] [];
        Assign ["tol"] [];
        Assign ["MLE_g"] ["siegerts.MLE_strength_function"];
        Assign ["result_eta_1"] [];
        For ["print"; "str"; "siegerts.exact_strength_function_OTF"]];
    Code [Expr ["plt.plot"];
        For ["result_eta_1.items"; "plt.plot"];
        Expr ["plt.plot"];
        Expr ["plt.ylim"];
        Expr ["plt.legend"];
        Expr ["plt.show"]];
    Code [For ["result_eta_1.items"; "plt.plot"; "abs"];
        Expr ["plt.plot"];
        Expr ["plt.title"];
        Expr ["plt.yscale"];
        Expr ["plt.legend"];
        Expr ["plt.show"]];
    Code [For ["result_eta_1.items"; "plt.plot"; "abs"];
        Expr ["plt.plot"];
        Expr ["plt.title"];
        Expr ["plt.yscale"];
        Expr ["plt.legend"];
        Expr ["plt.show"]]]
|}.

(** [src/doc/notebooks/convergence_exact_strength_function.ipynb], the notebook titled "Find the Siegert and continuum states of a 1D Square-Well Potential case". *)
Definition find_siegert_and_continuum_states : notebook := {|
  title := "Find the Siegert and continuum states of a 1D Square-Well Potential case";
  cells := [
    Markdown;
    Markdown;
    Code [ImportFrom "siegpy" ["SWPotential"; "SWPBasisSet"; "SWPSiegert"; "SWPContinuum"];
        Import ["numpy"]];
    Markdown;
    Code [Assign ["V0"] [];
        Assign ["l"] [];
        Assign ["npts"] [];
        Assign ["xmax"] [];
        Assign ["xgrid"] ["np.linspace"];
        Assign ["potential"] ["SWPotential"]];
    Markdown;
    Code [Expr ["potential.plot"];
        Expr ["print"];
        Expr ["print"; "isinstance"]];
    Markdown;
    Code [Assign ["re_kmax"] [];
        Assign ["im_kmax"] [];
        Assign ["re_hk"] [];
        Assign ["im_hk"] [];
        Assign ["siegerts"] ["SWPBasisSet.find_Siegert_states"]];
    Markdown;
    Code [Assert ["isinstance"];
        Assert ["all"; "isinstance"]];
    Markdown;
    Code [Expr ["print"; "len"];
        For ["enumerate"; "print"; "str.format"]];
    Markdown;
    Code [Assign ["bnds"] [];
        Assert ["isinstance"];
        Expr ["len"]];
    Code [Assign ["abnds"] [];
        Expr ["len"]];
    Code [Assign ["res"] [];
        Expr ["len"]];
    Code [Assign ["ares"] [];
        Expr ["len"]];
    Markdown;
    Markdown;
    Markdown;
    Code [For ["state.plot"; "repr"]];
    Markdown;
    Markdown;
    Code [Expr ["siegerts.plot_wavefunctions"]];
    Markdown;
    Code [Expr ["siegerts.plot_wavefunctions"]];
    Markdown;
    Code [Expr ["siegerts.plot_wavefunctions"]];
    Markdown;
    Code [Expr ["siegerts.plot_wavenumbers"]];
    Code [Expr ["siegerts.plot_energies"]];
    Markdown;
    Markdown;
    Code [Assign ["depths"] ["np.arange"];
        Assign ["l"] [];
        Assign ["re_kmax"] [];
        Assign ["im_kmax"] [];
        Assign ["re_hk"] [];
        Assign ["im_hk"] [];
        Assign ["basis_sets"] [];
        For ["SWPotential"; "basis_sets.append"; "SWPBasisSet.find_Siegert_states"]];
    Code [Assign ["xl"] [];
        For ["siegerts.plot_wavenumbers"; "str.format"]];
    Markdown;
    Code [Expr ["print"];
        For ["print"; "print"]];
    Markdown;
    Markdown;
    Code [Assign ["V0"] [];
        Assign ["l"] [];
        Assign ["potential"] ["SWPotential"];
        Assign ["hk"] [];
        Assign ["kmax"] [];
        Assign ["continuum"] ["SWPBasisSet.find_continuum_states"]];
    Markdown;
    Code [Assert ["isinstance"];
        Assert ["all"; "isinstance"];
        Expr []];
    Markdown;
    Markdown;
    Code [Assign ["siegerts"] ["SWPBasisSet.find_Siegert_states"];
        Assign ["ires"] [];
        Assign ["res"] [];
        Expr ["print"; "str.format"; "abs"];
        Assign ["hk"] [];
        Assign ["kmid"] ["abs"];
        Assign ["kmin"] [];
        Assign ["kmax"] [];
        Assign ["continuum"] ["SWPBasisSet.find_continuum_states"];
        For ["c.abs"; "c.abs().plot"; "repr"]];
    Markdown;
    Code [For ["c.abs"; "c.abs().plot"; "repr"]];
    Markdown;
    Code [Assign ["ires"] [];
        Assign ["res"] [];
        Expr ["print"; "str.format"; "abs"];
        Assign ["hk"] [];
        Assign ["kmid"] ["abs"];
        Assign ["kmin"] [];
        Assign ["kmax"] [];
        Assign ["continuum"] ["SWPBasisSet.find_continuum_states"];
        For ["c.abs"; "c.abs().plot"; "repr"]];
    Markdown]
|}.

(** [src/doc/notebooks/gaussian_potentials.ipynb], the notebook titled "Multiple Gaussian potentials". *)
Definition gaussian_potentials : notebook := {|
  title := "Multiple Gaussian potentials";
  cells := [
    Markdown;
    Markdown;
    Markdown;
    Code [Import ["numpy"];
        Import ["matplotlib.pyplot"];
        Import ["matplotlib.colors"];
        ImportFrom "matplotlib" ["cm"];
        ImportFrom "siegpy" ["Hamiltonian"; "ErfKGCoordMap"; "BasisSet"; "TwoGaussianPotential"; "FourGaussianPotential"]];
    Markdown;
    Markdown;
    Code [Assign ["xmax"] [];
        Assign ["xgrid"] ["np.linspace"];
        Assign ["sigma"] [];
        Assign ["xc"] [];
        Assign ["V0"] [];
        Assign ["sym_pot1"] ["TwoGaussianPotential"];
        Expr ["sym_pot1.plot"]];
    Markdown;
    Markdown;
    Code [Assign ["cm_g"] ["ErfKGCoordMap"];
        Assign ["ham1"] ["Hamiltonian"];
        Assign ["basis1"] ["ham1.solve"]];
    Markdown;
    Code [Assign ["re_e_max"] [];
        Assign ["im_e_min"] [];
        Assign ["im_k_max"] ["np.sqrt"];
        Assign ["re_k_max"] ["np.sqrt"];
        Assign ["re_e_lim"] [];
        Assign ["im_e_lim"] [];
        Assign ["re_k_lim"] [];
        Assign ["im_k_lim"] [];
        Expr ["basis1.plot_energies"];
        Expr ["basis1.plot_wavenumbers"];
        Expr ["basis1.plot_wavefunctions"]];
    Markdown;
    Code [Assign ["res"] [];
        Expr ["res.sort"];
        For ["enumerate"; "str.format"; "state.plot"]];
    Markdown;
    Markdown;
    Code [Assign ["xc2"] [];
        Assign ["sym_pot2"] ["TwoGaussianPotential"];
        Expr ["sym_pot2.plot"]];
    Markdown;
    Code [Assign ["ham2"] ["Hamiltonian"];
        Assign ["basis2"] ["ham2.solve"]];
    Markdown;
    Code [Expr ["basis2.plot_energies"];
        Expr ["basis2.plot_wavenumbers"];
        Expr ["basis2.plot_wavefunctions"]];
    Markdown;
    Code [Assign ["res"] [];
        Expr ["res.sort"];
        For ["enumerate"; "str.format"; "state.plot"]];
    Markdown;
    Markdown;
    Code [Assign ["V1"] [];
        Assign ["sym_pot3"] ["FourGaussianPotential"];
        Expr ["sym_pot3.plot"]];
    Markdown;
    Code [Assign ["ham3"] ["Hamiltonian"];
        Assign ["basis3"] ["ham3.solve"]];
    Markdown;
    Code [Expr ["basis3.plot_energies"];
        Expr ["basis3.plot_wavenumbers"];
        Expr ["basis3.plot_wavefunctions"]];
    Markdown;
    Code [Assign ["res"] [];
        Expr ["res.sort"];
        For ["enumerate"; "str.format"; "state.plot"]];
    Markdown;
    Markdown;
    Code [FunctionDef "scatter_plot" ["plt.figure"; "fig.add_subplot"; "ax.axhline"; "ax.axvline"; "BasisSet"; "np.min"; "np.log10"; "np.max"; "np.log10"; "matplotlib.colors.Normalize"; "enumerate"; "len"; "len"; "np.log10"; "ValueError"; "str.format"; "plt.cm.CMRmap"; "norm"; "ax.scatter"; "np.real"; "np.imag"; "str.format"; "cm.ScalarMappable"; "m.set_array"; "plt.colorbar"; "ax.set_xlabel"; "str.format"; "ax.set_ylabel"; "str.format"; "ax.set_xlim"; "ax.set_xticklabels"; "ax.get_xticks"; "ax.set_ylim"; "ax.set_yticklabels"; "ax.get_yticks"; "ax.set_title"; "fig.savefig"; "plt.legend"; "plt.show"]];
    Markdown;
    Code [Assign ["data_kwd"] [];
        If [];
        Assign ["basissets"] [];
        Expr ["scatter_plot"]];
    Markdown;
    Markdown;
    Code [Assign ["header"] [];
        For ["range"; "len"; "str.format"];
        Expr ["print"];
        Expr ["print"; "len"];
        Assign ["bnd_energies"] ["np.array"; "np.sort"];
        For ["range"; "len"; "str.format"; "str.format"; "print"];
        Assign ["n_res"] [];
        Assign ["res_energies"] ["np.array"; "np.sort"];
        For ["range"; "str.format"; "str.format"; "print"]];
    Code []]
|}.

(** [src/doc/notebooks/other_symbolic_potentials.ipynb], the notebook titled "Defining a new symbolic potential". *)
Definition other_symbolic_potentials : notebook := {|
  title := "Defining a new symbolic potential";
  cells := [
    Markdown;
    Markdown;
    Markdown;
    Markdown;
    Code [Import ["numpy"];
        Import ["matplotlib.pyplot"];
        ImportFrom "siegpy" ["SymbolicPotential"; "Hamiltonian"; "UniformCoordMap"]];
    Markdown;
    Markdown;
    Code [Assign ["xmax"] [];
        Assign ["xgrid"] ["np.linspace"];
        Assign ["a"] [];
        Assign ["b"] [];
        Assign ["sym_func"] ["str.format"];
        Assign ["pot"] ["SymbolicPotential"];
        Expr ["pot.plot"]];
    Markdown;
    Code [Assign ["cm"] ["UniformCoordMap"];
        Assign ["ham"] ["Hamiltonian"];
        Assign ["basis"] ["ham.solve"]];
    Code [Expr ["basis.plot_energies"];
        Expr ["basis.plot_wavenumbers"];
        Expr ["basis.plot_wavefunctions"]];
    Markdown]
|}.


(** [src/setup.cfg]: packaging, test, coverage and lint configuration. *)
Definition setup_cfg : file := {|
  path := "src/setup.cfg";
  holds := Config ["metadata"; "options"; "options.extras_require";
                   "options.package_data"; "aliases"; "tool:pytest";
                   "coverage:run"; "coverage:report"; "flake8"]
|}.

Definition submission : list file := [
  {| path := "src/unnamed/part_000";
     holds := Notebooks [time_propagation_errors; woods_saxon_potential] |};
  {| path := "src/doc/notebooks/convergence_exact_strength_function.ipynb";
     holds := Notebooks [convergence_exact_strength_function;
                         find_siegert_and_continuum_states] |};
  {| path := "src/doc/notebooks/gaussian_potentials.ipynb";
     holds := Notebooks [gaussian_potentials] |};
  {| path := "src/doc/notebooks/other_symbolic_potentials.ipynb";
     holds := Notebooks [other_symbolic_potentials] |};
  setup_cfg
].

Definition is_notebook_file (f : file) : bool :=
  match holds f with
  | Notebooks _ => true
  | Config _ => false
  end.

Definition notebooks_of (f : file) : list notebook :=
  match holds f with
  | Notebooks docs => docs
  | Config _ => []
  end.

Definition code_cells (nb : notebook) : list (list stmt) :=
  flat_map (fun c => match c with
                     | Markdown => []
                     | Code body => [body]
                     end) (cells nb).

(** All the top-level statements of all the code cells of a file. *)
Definition statements (f : file) : list stmt :=
  flat_map (fun nb => List.concat (code_cells nb)) (notebooks_of f).

(** The names a statement defines with [def] or [class]. *)
Definition defines (s : stmt) : list string :=
  match s with
  | FunctionDef name _ => [name]
  | ClassDef name => [name]
  | _ => []
  end.

Definition defined_names (fs : list file) : list string :=
  flat_map (fun f => flat_map defines (statements f)) fs.

(** The names a statement imports from the [siegpy] package. *)
Definition imports_from_siegpy (s : stmt) : list string :=
  match s with
  | ImportFrom m names => if m =? "siegpy" then names else []
  | _ => []
  end.

Definition siegpy_imports (fs : list file) : list string :=
  flat_map (fun f => flat_map imports_from_siegpy (statements f)) fs.

(** The functions called inside the body of the definition of [name]. *)
Definition calls_of_def (name : string) (s : stmt) : list string :=
  match s with
  | FunctionDef n calls => if n =? name then calls else []
  | _ => []
  end.

Definition calls_in_def (name : string) (fs : list file) : list string :=
  flat_map (fun f => flat_map (calls_of_def name) (statements f)) fs.

Definition mem (x : string) (l : list string) : bool :=
  existsb (String.eqb x) l.

Fixpoint contains (p s : string) : bool :=
  prefix p s ||
  match s with
  | EmptyString => false
  | String _ s' => contains p s'
  end.

(** A plotting call: an expression statement that only calls matplotlib
    ([plt....]) or a function or method with [plot] in its name. *)
Definition plotting_name (callee : string) : bool :=
  prefix "plt." callee || contains "plot" callee.

Definition is_plotting_call (s : stmt) : bool :=
  match s with
  | Expr (c :: cs) => forallb plotting_name (c :: cs)
  | _ => false
  end.

(** The classes of the core that the spec names, and the methods the
    notebooks call to find states ([find_Siegert_states] is the root search
    in the complex wavenumber plane) and to propagate a wave-packet. *)
Definition core_classes : list string :=
  ["SWPotential"; "Hamiltonian"; "SWPBasisSet"].

Definition state_finding_routines : list string :=
  ["find_Siegert_states"; "find_continuum_states"; "solve"].

Definition propagation_routines : list string :=
  ["exact_propagation"; "exact_Siegert_propagation"; "MLE_propagation";
   "Berggren_propagation"].

Definition core_names : list string :=
  core_classes ++ state_finding_routines ++ propagation_routines.

(** The definition of one of the three helper functions. *)
Definition is_helper_definition (s : stmt) : bool :=
  match s with
  | FunctionDef name _ => mem name ["print_errors"; "SSE_errors"; "scatter_plot"]
  | _ => false
  end.

(** The statements that drive the library: imports, assignments,
    expression statements, loops, tests and assertions. *)
Definition is_driver_statement (s : stmt) : bool :=
  match s with
  | Import _ | ImportFrom _ _ | Assign _ _ | Expr _ | For _ | If _ | Assert _ => true
  | FunctionDef _ _ | ClassDef _ => false
  end.

(** "Only markdown narrative and plotting calls": every statement of every
    code cell of every notebook is a plotting call. *)
Definition only_narrative_and_plots (fs : list file) : Prop :=
  forall f s, In f fs -> In s (statements f) -> is_plotting_call s = true.

(** "No algorithmic source": no statement of a code cell defines a function
    or a class. *)
Definition no_algorithmic_source (fs : list file) : Prop :=
  forall f s, In f fs -> In s (statements f) -> defines s = [].

End Submission.

(* ================================================================== *)
(** ** A free interpretation of the scalars, to run the helpers *)
(* ================================================================== *)

Module Symbolic.

Local Open Scope Q_scope.

(** Scalar expressions: each numpy operation is recorded, not computed, so
    a run shows which operations the helper applied to which entries. *)
Inductive sym : Type :=
| Lit (q : Q)
| Add (a b : sym)
| Sub (a b : sym)
| Mul (a b : sym)
| Div (a b : sym)
| Neg (a : sym)
| Log10 (a : sym)
| Min (a b : sym)
| Max (a b : sym)
| Abs (a : sym)
| Re (a : sym)
| Im (a : sym)
| LinspaceAt (start stop : sym) (num i : nat).

#[export] Instance sym_scalars : Scalars sym sym := {|
  f_zero := Lit 0;
  f_two := Lit 2;
  f_add := Add;
  f_sub := Sub;
  f_mul := Mul;
  f_div := Div;
  f_neg := Neg;
  f_log10 := Log10;
  f_min := Min;
  f_max := Max;
  c_sub := Sub;
  c_abs := Abs;
  c_real := Re;
  c_imag := Im;
  linspace := fun start stop num => map (LinspaceAt start stop num) (seq 0 num)
|}.

Definition well : Potential sym := {| width := Lit 3; depth := Lit 8 |}.

Definition state (t : state_type) (p : option parity_t) (k : Q) : State sym sym := {|
  Siegert_type := t;
  parity := p;
  wavenumber := Lit k;
  energy := Div (Mul (Lit k) (Lit k)) (Lit 2);
  virial := Lit (1 # 1000);
  potential := well;
  grid := None
|}.

(** A stand-in for the propagation methods: one row per requested time,
    two grid points per row. *)
Definition rows (tag : Q) (time_grid : list sym) : list (list sym) :=
  map (fun t => [Mul (Lit tag) t; Lit tag]) time_grid.

(** A stand-in for the methods of [SWPBasisSet]: the data file holds one
    bound and one resonant state, the continuum one state. *)
#[export] Instance sym_library : Library sym sym unit := {|
  from_file := fun _ _ => [state Bound (Some Even) 1; state Resonant (Some Odd) 2];
  find_Siegert_states := fun _ _ _ _ _ _ =>
    [state Bound (Some Even) 1; state Resonant (Some Odd) 2];
  find_continuum_states := fun _ _ _ _ => [state Continuum (Some Even) 3];
  exact_propagation := fun _ _ tg => rows 1 tg;
  exact_Siegert_propagation := fun _ _ tg => rows 2 tg;
  MLE_propagation := fun _ _ tg => rows 3 tg;
  Berggren_propagation := fun _ _ tg => rows 4 tg
|}.

End Symbolic.

(* ================================================================== *)
(** ** The shape of what the helpers emit *)
(* ================================================================== *)

Module Tables.
Import TimePropagation.

Section Shapes.

Context {F C : Type} {Sc : Scalars F C}.

(** The first [k] rows of a table, under its three header lines. *)
Definition partial_table (k : nat) (time_grid : list F)
    (exact siegert_exp : list (list C)) (dx : F) : list (stdout F) :=
  [Print line; Print title; Print line]
  ++ map (table_row exact siegert_exp dx) (firstn k (enumerate time_grid)).

(** A whole table: header, one row per time, closing lines. *)
Definition table (time_grid : list F)
    (exact siegert_exp : list (list C)) (dx : F) : list (stdout F) :=
  partial_table (List.length time_grid) time_grid exact siegert_exp dx
  ++ [Print line; Print ""%string].

(** What one of the three [if] blocks of [SSE_errors] prints when its
    table is printed in full. *)
Definition table_section (flag : bool) (header : string)
    (tbl : list (stdout F)) : list (stdout F) :=
  if flag then Print header :: tbl else [].

(** One of the three [if] blocks of [SSE_errors]: the header line, then
    the call to [print_errors]. *)
Definition expansion_block (flag : bool) (header : string)
    (tbl : M (stdout F) unit) : M (stdout F) unit :=
  if flag then bind (emit (Print header)) (fun _ => tbl) else ret tt.

(** An event that [print_errors] can emit. *)
Definition is_table_event (e : stdout F) : Prop :=
  match e with
  | Print s => s = line \/ s = title \/ s = ""%string
  | PrintRow _ _ _ => True
  end.

End Shapes.

End Tables.

Module Plots.
Import ScatterPlot.

Section Shapes.

Context {F C : Type} {Sc : Scalars F C}.

(** The calls that close [scatter_plot]. *)
Definition closing (e : plot_event F) : bool :=
  match e with
  | SaveFig _ | Legend | Show => true
  | _ => false
  end.

(** The pass on basis set number [i] asks for [markers[i]] with [i]
    beyond the four markers. *)
Definition beyond_markers (show_unknown : bool) (ib : nat * BasisSet F C) : bool :=
  (List.length markers <=? fst ib) && nonempty (states_to_plot show_unknown (snd ib)).

(** The types that [scatter_plot] always plots. *)
Definition always_plotted (t : state_type) : bool :=
  match t with
  | Bound | Resonant | Continuum => true
  | _ => false
  end.

End Shapes.

End Plots.

(** More stand-ins for the methods of [SWPBasisSet]. *)
Module SymbolicFiles.
Import Symbolic.

(** A data file without any state. *)
Definition empty_file_library : Library sym sym unit := {|
  from_file := fun _ _ => [];
  find_Siegert_states := fun _ _ _ _ _ _ => [];
  find_continuum_states := fun _ _ _ _ => [state Continuum (Some Even) 3];
  exact_propagation := fun _ _ tg => rows 1 tg;
  exact_Siegert_propagation := fun _ _ tg => rows 2 tg;
  MLE_propagation := fun _ _ tg => rows 3 tg;
  Berggren_propagation := fun _ _ tg => rows 4 tg
|}.

(** A data file with one resonant state and no bound state, and a search
    that finds no continuum state. *)
Definition resonant_only_library : Library sym sym unit := {|
  from_file := fun _ _ => [state Resonant (Some Odd) 2];
  find_Siegert_states := fun _ _ _ _ _ _ => [state Resonant (Some Odd) 2];
  find_continuum_states := fun _ _ _ _ => [];
  exact_propagation := fun _ _ tg => rows 1 tg;
  exact_Siegert_propagation := fun _ _ tg => rows 2 tg;
  MLE_propagation := fun _ _ tg => rows 3 tg;
  Berggren_propagation := fun _ _ tg => rows 4 tg
|}.

(** A library whose Mittag-Leffler propagation returns no row. *)
Definition short_MLE_library : Library sym sym unit := {|
  from_file := fun _ _ => [state Bound (Some Even) 1; state Resonant (Some Odd) 2];
  find_Siegert_states := fun _ _ _ _ _ _ =>
    [state Bound (Some Even) 1; state Resonant (Some Odd) 2];
  find_continuum_states := fun _ _ _ _ => [state Continuum (Some Even) 3];
  exact_propagation := fun _ _ tg => rows 1 tg;
  exact_Siegert_propagation := fun _ _ tg => rows 2 tg;
  MLE_propagation := fun _ _ _ => [];
  Berggren_propagation := fun _ _ tg => rows 4 tg
|}.

Local Open Scope Q_scope.

(** Two times, and the step of the three-point grid over the well. *)
Definition two_times : list sym := [Lit 0; Lit (1 # 4)].

Definition one_time : list sym := [Lit 0].

(** One basis set with a bound and an unknown state, and five basis sets
    of which only the fifth holds a state. *)
Definition one_set : list (BasisSet sym sym) :=
  [[state Bound (Some Even) 1; state Unknown None 5]].

Definition five_sets : list (BasisSet sym sym) :=
  [[]; []; []; []; [state Bound (Some Even) 1]].

Definition step3 : sym :=
  Sub (LinspaceAt (Div (Neg (Lit 3)) (Lit 2)) (Div (Lit 3) (Lit 2)) 3 1)
      (LinspaceAt (Div (Neg (Lit 3)) (Lit 2)) (Div (Lit 3) (Lit 2)) 3 0).

End SymbolicFiles.

(* ================================================================== *)
(** * Properties *)
(* ================================================================== *)

Unset Implicit Arguments.

(** ** The effect monad *)

Section MonadFacts.

Context {E : Type}.

Lemma res_bind {A B} (m : M E A) (f : A -> M E B) :
  res (bind m f) = match res m with
                   | Ok a => res (f a)
                   | Raise e => Raise e
                   end.
Proof.
  destruct m as [o [a | e]]; simpl; [destruct (f a) | ]; reflexivity.
Qed.

Lemma out_bind {A B} (m : M E A) (f : A -> M E B) :
  out (bind m f) = out m ++ match res m with
                            | Ok a => out (f a)
                            | Raise _ => []
                            end.
Proof.
  destruct m as [o [a | e]]; simpl.
  - destruct (f a); reflexivity.
  - now rewrite app_nil_r.
Qed.

Lemma bind_ok {A B} (o : list E) (a : A) (f : A -> M E B) :
  bind (o, Ok a) f = (o ++ out (f a), res (f a)).
Proof. simpl. destruct (f a); reflexivity. Qed.

Lemma bind_lift_ok {A B} (a : A) (f : A -> M E B) :
  bind (lift (Ok a)) f = f a.
Proof. unfold lift. simpl. now destruct (f a). Qed.

Lemma bind_lift_raise {A B} (e : exn) (f : A -> M E B) :
  bind (lift (Raise e)) f = ([], Raise e).
Proof. reflexivity. Qed.

End MonadFacts.

(** ** [print_errors] *)

Module TimePropagationFacts.
Import TimePropagation Tables.

Section Facts.

Context {F C : Type} {Sc : Scalars F C}.

Lemma index_some {A} (l : list A) (i : nat) (x : A) :
  nth_error l i = Some x -> index l i = Ok x.
Proof. unfold index. now intros ->. Qed.

(** One pass of the loop prints the row of the table when both rows are
    there and broadcast. *)
Lemma print_errors_row_ok (exact siegert_exp : list (list C)) (dx : F)
    (i : nat) (t : F) (exact_i siegert_exp_i : list C) :
  nth_error exact i = Some exact_i ->
  nth_error siegert_exp i = Some siegert_exp_i ->
  broadcastable (List.length exact_i) (List.length siegert_exp_i) = true ->
  print_errors_row exact siegert_exp dx (i, t) tt
  = ([table_row exact siegert_exp dx (i, t)], Ok tt).
Proof.
  intros He Hs Hb.
  unfold print_errors_row, table_row, rel_error, abs_error, np_sub.
  cbn [fst snd].
  rewrite (index_some _ _ _ He), (index_some _ _ _ Hs).
  rewrite (nth_error_nth _ _ [] He), (nth_error_nth _ _ [] Hs).
  simpl. rewrite Hb. reflexivity.
Qed.

(** The loop over [enumerate(time_grid)], started at any offset [k]. *)
Lemma print_errors_loop (exact siegert_exp : list (list C)) (dx : F) :
  forall (l : list F) (k : nat),
    (forall j, j < List.length l ->
       exists exact_i siegert_exp_i,
         nth_error exact (k + j) = Some exact_i /\
         nth_error siegert_exp (k + j) = Some siegert_exp_i /\
         broadcastable (List.length exact_i) (List.length siegert_exp_i) = true) ->
    for_each (combine (seq k (List.length l)) l)
             (print_errors_row exact siegert_exp dx) tt
    = (map (table_row exact siegert_exp dx) (combine (seq k (List.length l)) l),
       Ok tt).
Proof.
  induction l as [| t l IH]; intros k H.
  - reflexivity.
  - destruct (H 0) as (ei & si & He & Hs & Hb); [simpl; lia |].
    rewrite Nat.add_0_r in He, Hs.
    cbn [List.length seq combine for_each map].
    rewrite (print_errors_row_ok _ _ dx _ t _ _ He Hs Hb).
    rewrite bind_ok, IH.
    + reflexivity.
    + intros j Hj. replace (S k + j) with (k + S j) by lia.
      apply H. simpl. lia.
Qed.

(** C7 (amended).  When [exact] and [siegert_exp] both have a row for every
    index of the global [time_grid], and the rows at each index broadcast,
    [print_errors] returns after printing the three header lines, one row
    per entry of [time_grid] and the two closing lines.  The row at index
    [i] carries the time [t], the absolute error
    [np.trapz(np.abs(exact[i] - siegert_exp[i]), dx=dx)] and that error
    divided by [np.trapz(np.abs(exact[i]), dx=dx)]. *)
Theorem print_errors_table (time_grid : list F)
    (exact siegert_exp : list (list C)) (dx : F) :
  rows_available time_grid exact siegert_exp ->
  print_errors time_grid exact siegert_exp dx
  = ([Print line; Print title; Print line]
     ++ map (table_row exact siegert_exp dx) (enumerate time_grid)
     ++ [Print line; Print ""%string],
     Ok tt)
  /\ List.length (map (table_row exact siegert_exp dx) (enumerate time_grid))
     = List.length time_grid.
Proof.
  intros H. split.
  - unfold print_errors, enumerate.
    rewrite (print_errors_loop exact siegert_exp dx time_grid 0 H).
    reflexivity.
  - unfold enumerate.
    now rewrite length_map, length_combine, length_seq, Nat.min_id.
Qed.

(** A full table is what [print_errors] prints when it returns. *)
Lemma print_errors_ok (time_grid : list F)
    (exact siegert_exp : list (list C)) (dx : F) :
  rows_available time_grid exact siegert_exp ->
  print_errors time_grid exact siegert_exp dx
  = (table time_grid exact siegert_exp dx, Ok tt).
Proof.
  intros H. unfold print_errors, table, partial_table, enumerate.
  rewrite (print_errors_loop exact siegert_exp dx time_grid 0 H).
  rewrite firstn_all2.
  - reflexivity.
  - rewrite length_combine, length_seq. lia.
Qed.

Context {Wavefunction : Type} {Lib : Library F C Wavefunction}.

Lemma truthy_nonempty (b : BasisSet F C) : b <> [] -> truthy b = true.
Proof. destruct b; [congruence | reflexivity]. Qed.

(** C3 (amended).  The value passed for [exact] never reaches the test
    [if exact:]: any two values give the same run.  When the data file holds
    a state and the grid has two points, so that the rebinding is reached,
    and the basis set [cont + siegerts.bounds] is not empty, the run with
    [exact=False] computes the exact Siegert expansion and prints its
    header and the header of its table; when moreover the two arrays have a
    row for every index of the global [time_grid], with shapes that
    broadcast, the header is followed by the full table of the errors, one
    row per entry of the global [time_grid]. *)
Theorem SSE_errors_exact_rebound (global_time_grid : list F)
    (filename : string) (nres : nat) (k_max h_k : F) (nx : nat)
    (test_func : Wavefunction) (time_grid : list F) (MLE Ber : bool) :
  (forall e1 e2 : bool,
     SSE_errors global_time_grid filename nres k_max h_k nx test_func
                time_grid e1 MLE Ber
     = SSE_errors global_time_grid filename nres k_max h_k nx test_func
                  time_grid e2 MLE Ber)
  /\
  (forall (s0 : State F C) (rest : BasisSet F C) (x0 x1 : F) (xs : list F),
     from_file filename (Some nres) = s0 :: rest ->
     linspace (f_div (f_neg (width (potential s0))) f_two)
              (f_div (width (potential s0)) f_two) nx = x0 :: x1 :: xs ->
     let xgrid := x0 :: x1 :: xs in
     let siegerts := map (set_grid xgrid) (s0 :: rest) in
     let cont := find_continuum_states (potential s0) k_max h_k (Some xgrid) in
     let basis := add cont (bounds siegerts) in
     let exact_tp := exact_propagation basis test_func time_grid in
     let exact_S_tp := exact_Siegert_propagation siegerts test_func time_grid in
     basis <> [] ->
     (exists later : list (stdout F),
        out (SSE_errors global_time_grid filename nres k_max h_k nx test_func
                        time_grid false MLE Ber)
        = Print "         Exact Siegert"
          :: Print line :: Print title :: Print line :: later)
     /\
     (rows_available global_time_grid exact_tp exact_S_tp ->
      exists later : list (stdout F),
        out (SSE_errors global_time_grid filename nres k_max h_k nx test_func
                        time_grid false MLE Ber)
        = Print "         Exact Siegert"
          :: table global_time_grid exact_tp exact_S_tp (f_sub x1 x0)
          ++ later)).
Proof.
  split.
  - reflexivity.
  - intros s0 rest x0 x1 xs Hfile Hgrid xgrid siegerts cont basis
           exact_tp exact_S_tp Hne.
    unfold SSE_errors. rewrite Hfile.
    change (index (s0 :: rest) 0) with (Ok s0).
    rewrite bind_lift_ok. cbv zeta. rewrite Hgrid.
    change (index (x0 :: x1 :: xs) 1) with (Ok x1).
    change (index (x0 :: x1 :: xs) 0) with (Ok x0).
    rewrite !bind_lift_ok.
    fold xgrid. fold siegerts. fold cont. fold basis.
    fold exact_tp. fold exact_S_tp.
    rewrite (truthy_nonempty basis Hne).
    split.
    + unfold print_errors. rewrite !out_bind.
      cbn [out res emit fst snd app]. eexists. reflexivity.
    + intros Hrows.
      rewrite (print_errors_ok global_time_grid exact_tp exact_S_tp
                 (f_sub x1 x0) Hrows).
      rewrite out_bind, out_bind. simpl out at 1.
      eexists. simpl. reflexivity.
Qed.

End Facts.

(** *** Runs on the symbolic scalars *)

Import Symbolic.

Local Open Scope Q_scope.

(** A run of [print_errors] on arrays computed for the two times of the
    global [time_grid]: both arrays have their two rows, and the table has
    its two rows. *)
Lemma print_errors_table_witness :
  rows_available [Lit 0; Lit (1 # 4)]
                 (rows 1 [Lit 0; Lit (1 # 4)]) (rows 2 [Lit 0; Lit (1 # 4)])
  /\ print_errors [Lit 0; Lit (1 # 4)]
                  (rows 1 [Lit 0; Lit (1 # 4)]) (rows 2 [Lit 0; Lit (1 # 4)])
                  (Lit (1 # 100))
     = ([Print line; Print title; Print line;
         table_row (rows 1 [Lit 0; Lit (1 # 4)]) (rows 2 [Lit 0; Lit (1 # 4)])
                   (Lit (1 # 100)) (0%nat, Lit 0);
         table_row (rows 1 [Lit 0; Lit (1 # 4)]) (rows 2 [Lit 0; Lit (1 # 4)])
                   (Lit (1 # 100)) (1%nat, Lit (1 # 4));
         Print line; Print ""%string],
        Ok tt).
Proof.
  assert (H : rows_available [Lit 0; Lit (1 # 4)]
                (rows 1 [Lit 0; Lit (1 # 4)]) (rows 2 [Lit 0; Lit (1 # 4)])).
  { intros i Hi. destruct i as [| [| i]].
    - do 2 eexists. repeat split; reflexivity.
    - do 2 eexists. repeat split; reflexivity.
    - simpl in Hi. lia. }
  split; [exact H |].
  exact (proj1 (print_errors_table _ _ _ (Lit (1 # 100)) H)).
Defined.

(** C7 as stated fails when an array has fewer rows than the global
    [time_grid] has entries: with two times and arrays of one row,
    [print_errors] prints the header and a single row, then raises
    IndexError on [exact[1]]; the closing lines are not printed. *)
Lemma print_errors_short_array_counterexample :
  print_errors [Lit 0; Lit (1 # 4)] [[Lit 1; Lit 2]] [[Lit 1; Lit 1]] (Lit (1 # 100))
  = ([Print line; Print title; Print line;
      table_row [[Lit 1; Lit 2]] [[Lit 1; Lit 1]] (Lit (1 # 100)) (0%nat, Lit 0)],
     Raise IndexError)
  /\ print_errors [Lit 0; Lit (1 # 4)] [[Lit 1; Lit 2]] [[Lit 1; Lit 1]] (Lit (1 # 100))
     <> ([Print line; Print title; Print line]
         ++ map (table_row [[Lit 1; Lit 2]] [[Lit 1; Lit 1]] (Lit (1 # 100)))
                (enumerate [Lit 0; Lit (1 # 4)])
         ++ [Print line; Print ""%string],
         Ok tt).
Proof. split; [reflexivity | discriminate]. Qed.

(** A run of [SSE_errors] with [exact=False]: the data file holds a bound
    state, the grid has three points, the arrays have their two rows, and
    the exact Siegert table is printed first all the same. *)
Lemma SSE_errors_exact_rebound_witness :
  rows_available [Lit 0; Lit (1 # 4)]
                 (rows 1 [Lit 0; Lit (1 # 4)]) (rows 2 [Lit 0; Lit (1 # 4)])
  /\ SSE_errors [Lit 0; Lit (1 # 4)] "siegerts.dat" 50 (Lit 40) (Lit (1 # 100)) 3 tt
               [Lit 0; Lit (1 # 4)] true true true
     = SSE_errors [Lit 0; Lit (1 # 4)] "siegerts.dat" 50 (Lit 40) (Lit (1 # 100)) 3 tt
                  [Lit 0; Lit (1 # 4)] false true true
  /\ exists later,
       out (SSE_errors [Lit 0; Lit (1 # 4)] "siegerts.dat" 50 (Lit 40)
                       (Lit (1 # 100)) 3 tt [Lit 0; Lit (1 # 4)] false true true)
       = Print "         Exact Siegert"
         :: table [Lit 0; Lit (1 # 4)]
              (rows 1 [Lit 0; Lit (1 # 4)]) (rows 2 [Lit 0; Lit (1 # 4)])
              (Sub (LinspaceAt (Div (Neg (Lit 3)) (Lit 2)) (Div (Lit 3) (Lit 2)) 3 1)
                   (LinspaceAt (Div (Neg (Lit 3)) (Lit 2)) (Div (Lit 3) (Lit 2)) 3 0))
         ++ later.
Proof.
  assert (H : rows_available [Lit 0; Lit (1 # 4)]
                (rows 1 [Lit 0; Lit (1 # 4)]) (rows 2 [Lit 0; Lit (1 # 4)])).
  { intros i Hi. destruct i as [| [| i]].
    - do 2 eexists. repeat split; reflexivity.
    - do 2 eexists. repeat split; reflexivity.
    - simpl in Hi. lia. }
  destruct (SSE_errors_exact_rebound [Lit 0; Lit (1 # 4)] "siegerts.dat" 50
              (Lit 40) (Lit (1 # 100)) 3 tt [Lit 0; Lit (1 # 4)] true true)
    as [Hsame Hruns].
  split; [exact H |]. split.
  - apply Hsame.
  - refine (proj2 (Hruns (state Bound (Some Even) 1)
                         [state Resonant (Some Odd) 2]
                         _ _ _ eq_refl eq_refl _) H).
    discriminate.
Defined.

(** C3 as stated fails on the printing of the errors.  With a global
    [time_grid] of two times and an empty [time_grid] argument, the data
    file holds a state, the grid has three points and the basis set
    [cont + siegerts.bounds] is not empty, yet the run with [exact=False]
    prints the header of the exact Siegert expansion and the header of its
    table, then raises IndexError on [exact[0]]: no error is printed. *)
Lemma SSE_errors_no_row_counterexample :
  add (find_continuum_states well (Lit 40) (Lit (1 # 100))
         (Some (linspace (Div (Neg (Lit 3)) (Lit 2)) (Div (Lit 3) (Lit 2)) 3)))
      (bounds (map (set_grid (linspace (Div (Neg (Lit 3)) (Lit 2))
                                       (Div (Lit 3) (Lit 2)) 3))
                   (from_file "siegerts.dat" (Some 50%nat))))
  <> []
  /\ SSE_errors [Lit 0; Lit (1 # 4)] "siegerts.dat" 50 (Lit 40) (Lit (1 # 100)) 3 tt
                [] false true true
     = ([Print "         Exact Siegert"; Print line; Print title; Print line],
        Raise IndexError).
Proof. split; [discriminate | reflexivity]. Qed.

End TimePropagationFacts.

(** ** [scatter_plot] *)

Module ScatterPlotFacts.
Import ScatterPlot.

Section Facts.

Context {F C : Type} {Sc : Scalars F C}.

Lemma no_value_error_bind {E A B} (m : M E A) (f : A -> M E B) :
  no_value_error (res m) ->
  (forall a, no_value_error (res (f a))) ->
  no_value_error (res (bind m f)).
Proof.
  intros Hm Hf. rewrite res_bind.
  destruct (res m) as [a | e]; [apply Hf | exact Hm].
Qed.

Lemma no_value_error_index {A} (l : list A) (i : nat) :
  no_value_error (index l i).
Proof. unfold index. destruct (nth_error l i); exact I. Qed.

Lemma all_states_cons (b : BasisSet F C) (bs : list (BasisSet F C)) :
  all_states (b :: bs) = b ++ all_states bs.
Proof.
  unfold all_states, add, empty. simpl.
  assert (G : forall (l : list (BasisSet F C)) (acc : BasisSet F C),
             fold_left (fun a c => a ++ c) l acc
             = acc ++ fold_left (fun a c => a ++ c) l []).
  { induction l as [| x l IH]; intros acc; simpl.
    - now rewrite app_nil_r.
    - rewrite IH, (IH x). now rewrite app_assoc. }
  apply G.
Qed.

(** The basis sets hold no state exactly when each of them is empty. *)
Lemma all_states_nil_iff (bs : list (BasisSet F C)) :
  all_states bs = [] <-> Forall (fun b => b = []) bs.
Proof.
  induction bs as [| b bs IH].
  - split; [constructor | reflexivity].
  - rewrite all_states_cons. split.
    + intros H. apply app_eq_nil in H as [Hb Hbs].
      constructor; [exact Hb | now apply IH].
    + intros H. inversion H as [| ? ? Hb Hbs]; subst.
      now rewrite (proj2 IH Hbs).
Qed.

(** With a good keyword the selection succeeds. *)
Lemma select_data_good (data_kwd : string) (to_plot : BasisSet F C) :
  ~ bad_data_kwd data_kwd ->
  exists sel, select_data data_kwd to_plot = Ok sel.
Proof.
  intros Hgood. unfold select_data.
  destruct (String.eqb_spec data_kwd "wavenumbers"%string) as [| Hw]; [eauto |].
  destruct (String.eqb_spec data_kwd "energies"%string) as [| He]; [eauto |].
  exfalso. apply Hgood. now split.
Qed.

(** With a bad keyword it raises the ValueError that quotes the keyword. *)
Lemma select_data_bad (data_kwd : string) (to_plot : BasisSet F C) :
  bad_data_kwd data_kwd ->
  select_data data_kwd to_plot = Raise (ValueError (data_kwd_error data_kwd)).
Proof.
  intros [Hw He]. unfold select_data.
  rewrite (proj2 (String.eqb_neq _ _) Hw), (proj2 (String.eqb_neq _ _) He).
  reflexivity.
Qed.

Lemma plot_basis_good (data_kwd : string) (show_unknown : bool) (vmin vmax : F)
    (ib : nat * BasisSet F C) (d : option string) :
  ~ bad_data_kwd data_kwd ->
  no_value_error (res (plot_basis data_kwd show_unknown vmin vmax ib d)).
Proof.
  intros Hgood. unfold plot_basis. destruct ib as [i b].
  destruct (select_data_good data_kwd (states_to_plot show_unknown b) Hgood)
    as [[label data] ->].
  rewrite bind_lift_ok.
  apply no_value_error_bind; [| intros; exact I].
  destruct (nonempty data); [| exact I].
  apply no_value_error_bind; [apply no_value_error_index | intros; exact I].
Qed.

(** With a good keyword the loop never ends in a ValueError. *)
Lemma plot_loop_good (data_kwd : string) (show_unknown : bool) (vmin vmax : F) :
  ~ bad_data_kwd data_kwd ->
  forall (l : list (nat * BasisSet F C)) (d : option string),
    no_value_error (res (for_each l (plot_basis data_kwd show_unknown vmin vmax) d)).
Proof.
  intros Hgood. induction l as [| ib l IH]; intros d.
  - exact I.
  - cbn [for_each]. apply no_value_error_bind.
    + now apply plot_basis_good.
    + intros a. apply IH.
Qed.

(** With a bad keyword the first pass raises, whatever the basis set. *)
Lemma plot_loop_bad (data_kwd : string) (show_unknown : bool) (vmin vmax : F)
    (ib : nat * BasisSet F C) (l : list (nat * BasisSet F C)) (d : option string) :
  bad_data_kwd data_kwd ->
  res (for_each (ib :: l) (plot_basis data_kwd show_unknown vmin vmax) d)
  = Raise (ValueError (data_kwd_error data_kwd)).
Proof.
  intros Hbad. cbn [for_each]. rewrite res_bind.
  unfold plot_basis. destruct ib as [i b].
  rewrite (select_data_bad data_kwd _ Hbad), bind_lift_raise.
  reflexivity.
Qed.

(** How [scatter_plot_axes] ends when the basis sets hold a state: as the
    loop does if the loop raises, and normally otherwise, unless the loop
    left [data_label] unbound. *)
Lemma scatter_plot_axes_res (data_kwd : string) (basissets : list (BasisSet F C))
    (xlim ylim : option (F * F)) (title : option string) (show_unknown : bool) :
  all_states basissets <> [] ->
  exists vmin vmax : F,
    res (scatter_plot_axes data_kwd basissets xlim ylim title show_unknown)
    = match res (for_each (enumerate basissets)
                          (plot_basis data_kwd show_unknown vmin vmax) None) with
      | Raise e => Raise e
      | Ok None => Raise (UnboundLocalError "data_label")
      | Ok (Some _) => Ok tt
      end.
Proof.
  intros Hne. unfold scatter_plot_axes.
  destruct (all_states basissets) as [| s ss]; [congruence |].
  cbn [virials np_log10 map np_min np_max].
  exists (fold_left f_min (map f_log10 (map virial ss)) (f_log10 (virial s))),
         (fold_left f_max (map f_log10 (map virial ss)) (f_log10 (virial s))).
  repeat (rewrite res_bind; cbn [res emit lift snd]).
  destruct (res (for_each _ _ _)) as [[d |] | e]; try reflexivity.
  repeat (rewrite res_bind; cbn [res emit lift snd]).
  destruct xlim, ylim, title; reflexivity.
Qed.

(** Without any state the reduction [np.min] raises before the loop. *)
Lemma scatter_plot_axes_no_state (data_kwd : string)
    (basissets : list (BasisSet F C))
    (xlim ylim : option (F * F)) (title : option string) (show_unknown : bool) :
  all_states basissets = [] ->
  res (scatter_plot_axes data_kwd basissets xlim ylim title show_unknown)
  = Raise (ValueError zero_size_min).
Proof.
  intros Hall. unfold scatter_plot_axes. rewrite Hall.
  repeat (rewrite res_bind; cbn [res emit lift snd]).
  reflexivity.
Qed.

(** The closing calls of either copy do not raise. *)
Lemma gaussian_scatter_plot_res (data_kwd : string) (basissets : list (BasisSet F C))
    (xlim ylim : option (F * F)) (title file_save : option string)
    (show_unknown : bool) :
  res (GaussianPotentials.scatter_plot data_kwd basissets xlim ylim title
         file_save show_unknown)
  = res (scatter_plot_axes data_kwd basissets xlim ylim title show_unknown).
Proof.
  unfold GaussianPotentials.scatter_plot. rewrite res_bind.
  destruct (res (scatter_plot_axes _ _ _ _ _ _)) as [[] | e]; [| reflexivity].
  destruct file_save; reflexivity.
Qed.

Lemma woods_saxon_scatter_plot_res (data_kwd : string)
    (basissets : list (BasisSet F C))
    (xlim ylim : option (F * F)) (title file_save : option string)
    (show_unknown : bool) :
  res (WoodsSaxon.scatter_plot data_kwd basissets xlim ylim title
         file_save show_unknown)
  = res (scatter_plot_axes data_kwd basissets xlim ylim title show_unknown).
Proof.
  unfold WoodsSaxon.scatter_plot. rewrite res_bind.
  destruct (res (scatter_plot_axes _ _ _ _ _ _)) as [[] | e]; [| reflexivity].
  destruct file_save; reflexivity.
Qed.

Lemma bad_data_kwd_dec (data_kwd : string) :
  {bad_data_kwd data_kwd} + {~ bad_data_kwd data_kwd}.
Proof.
  unfold bad_data_kwd.
  destruct (string_dec data_kwd "wavenumbers") as [-> | Hw].
  - right. intros [H _]. now apply H.
  - destruct (string_dec data_kwd "energies") as [-> | He].
    + right. intros [_ H]. now apply H.
    + left. now split.
Qed.

(** For basis sets with a state, [scatter_plot_axes] raises the ValueError
    that quotes [data_kwd] exactly when [data_kwd] is bad. *)
Lemma scatter_plot_axes_iff (data_kwd : string) (basissets : list (BasisSet F C))
    (xlim ylim : option (F * F)) (title : option string) (show_unknown : bool) :
  all_states basissets <> [] ->
  res (scatter_plot_axes data_kwd basissets xlim ylim title show_unknown)
  = Raise (ValueError (data_kwd_error data_kwd))
  <-> bad_data_kwd data_kwd.
Proof.
  intros Hne.
  destruct (scatter_plot_axes_res data_kwd basissets xlim ylim title
              show_unknown Hne) as (vmin & vmax & ->).
  split.
  - intros Hraise.
    destruct (bad_data_kwd_dec data_kwd) as [Hbad | Hgood]; [exact Hbad |].
    pose proof (plot_loop_good data_kwd show_unknown vmin vmax Hgood
                  (enumerate basissets) None) as Hloop.
    destruct (res (for_each _ _ _)) as [[d |] | e]; try discriminate.
    injection Hraise as ->. destruct Hloop.
  - intros Hbad.
    destruct basissets as [| b bs]; [now contradiction Hne |].
    unfold enumerate. cbn [List.length seq combine].
    now rewrite (plot_loop_bad data_kwd show_unknown vmin vmax _ _ None Hbad).
Qed.

(** C6 (amended).  In both copies of [scatter_plot]: when the basis sets
    hold at least one state in total, the ValueError that quotes
    [data_kwd] is raised if and only if [data_kwd] is neither
    ['wavenumbers'] nor ['energies'].  The check sits inside the loop, after
    the virial scale: when the basis sets hold no state at all, as when
    [basissets] is empty, [np.min] raises its own ValueError on the empty
    array and no ValueError about [data_kwd] is raised, whatever its
    value. *)
Theorem scatter_plot_data_kwd_check (data_kwd : string)
    (basissets : list (BasisSet F C))
    (xlim ylim : option (F * F)) (title file_save : option string)
    (show_unknown : bool) :
  (all_states basissets <> [] ->
     (res (GaussianPotentials.scatter_plot data_kwd basissets xlim ylim title
             file_save show_unknown)
      = Raise (ValueError (data_kwd_error data_kwd))
      <-> bad_data_kwd data_kwd)
     /\
     (res (WoodsSaxon.scatter_plot data_kwd basissets xlim ylim title
             file_save show_unknown)
      = Raise (ValueError (data_kwd_error data_kwd))
      <-> bad_data_kwd data_kwd))
  /\
  (all_states basissets = [] ->
     res (GaussianPotentials.scatter_plot data_kwd basissets xlim ylim title
            file_save show_unknown)
     = Raise (ValueError zero_size_min)
     /\
     res (WoodsSaxon.scatter_plot data_kwd basissets xlim ylim title
            file_save show_unknown)
     = Raise (ValueError zero_size_min)
     /\
     Raise (A := unit) (ValueError zero_size_min)
     <> Raise (ValueError (data_kwd_error data_kwd)))
  /\
  all_states (@nil (BasisSet F C)) = [].
Proof.
  rewrite gaussian_scatter_plot_res, woods_saxon_scatter_plot_res.
  split; [| split].
  - intros Hne. split; now apply scatter_plot_axes_iff.
  - intros Hall.
    rewrite (scatter_plot_axes_no_state data_kwd basissets xlim ylim title
               show_unknown Hall).
    repeat split. discriminate.
  - reflexivity.
Qed.

End Facts.

(** *** Runs on the symbolic scalars *)

Import Symbolic.

(** A call with one basis set of two states and the keyword ['foo']: the
    hypothesis of the first part holds, and the ValueError quotes ['foo']. *)
Lemma scatter_plot_data_kwd_check_witness :
  all_states [[state Bound (Some Even) 1; state Unknown None 5]] <> []
  /\ (res (GaussianPotentials.scatter_plot "foo"
             [[state Bound (Some Even) 1; state Unknown None 5]]
             None None None None false)
      = Raise (ValueError (data_kwd_error "foo"))
      <-> bad_data_kwd "foo")
  /\ (res (WoodsSaxon.scatter_plot "foo"
             [[state Bound (Some Even) 1; state Unknown None 5]]
             None None None None false)
      = Raise (ValueError (data_kwd_error "foo"))
      <-> bad_data_kwd "foo").
Proof.
  assert (H : all_states [[state Bound (Some Even) 1; state Unknown None 5]] <> [])
    by discriminate.
  split; [exact H |].
  exact (proj1 (scatter_plot_data_kwd_check "foo"
                  [[state Bound (Some Even) 1; state Unknown None 5]]
                  None None None None false) H).
Defined.

(** C6 as stated fails on a non-empty list of basis sets that hold no
    state: with [basissets = [BasisSet()]] and the keyword ['foo'], which
    is neither ['wavenumbers'] nor ['energies'], both copies raise the
    ValueError of [np.min] on an empty array, not the one that quotes
    ['foo']. *)
Lemma scatter_plot_no_state_counterexample :
  [@empty sym sym] <> []
  /\ bad_data_kwd "foo"
  /\ res (GaussianPotentials.scatter_plot "foo" [@empty sym sym]
            None None None None false)
     = Raise (ValueError zero_size_min)
  /\ res (WoodsSaxon.scatter_plot "foo" [@empty sym sym]
            None None None None false)
     = Raise (ValueError zero_size_min)
  /\ ~ (res (GaussianPotentials.scatter_plot "foo" [@empty sym sym]
               None None None None false)
        = Raise (ValueError (data_kwd_error "foo"))
        <-> bad_data_kwd "foo").
Proof.
  assert (Hbad : bad_data_kwd "foo") by (split; discriminate).
  repeat split; try discriminate; try reflexivity.
  intros [_ H]. specialize (H Hbad). discriminate H.
Qed.

End ScatterPlotFacts.

(** ** Basis sets *)

Module SiegpyFacts.

Section Facts.

Context {F C : Type}.

Lemma has_type_spec (t : state_type) (s : State F C) :
  has_type t s = true <-> Siegert_type s = t.
Proof.
  unfold has_type. destruct (Siegert_type s), t; simpl; split;
    intros H; try reflexivity; discriminate H.
Qed.

Lemma has_parity_spec (p : parity_t) (s : State F C) :
  has_parity p s = true <-> parity s = Some p.
Proof.
  unfold has_parity. destruct (parity s) as [[] |], p; simpl; split;
    intros H; try reflexivity; discriminate H.
Qed.

Lemma filter_by_type (t : state_type) (a : BasisSet F C) (s : State F C) :
  In s (filter (has_type t) a) <-> In s a /\ Siegert_type s = t.
Proof. now rewrite filter_In, has_type_spec. Qed.

Lemma filter_by_parity (p : parity_t) (a : BasisSet F C) (s : State F C) :
  In s (filter (has_parity p) a) <-> In s a /\ parity s = Some p.
Proof. now rewrite filter_In, has_parity_spec. Qed.

(** In the modelled basis set, [a + b] (and [a += b]) holds exactly the
    states of [a] together with the states of [b], and each filter
    attribute holds exactly the member states of its type or parity. *)
Lemma basis_set_composition_and_filters (a b : BasisSet F C) (s : State F C) :
  (In s (add a b) <-> In s a \/ In s b)
  /\ (In s (bounds a) <-> In s a /\ Siegert_type s = Bound)
  /\ (In s (resonants a) <-> In s a /\ Siegert_type s = Resonant)
  /\ (In s (continuum a) <-> In s a /\ Siegert_type s = Continuum)
  /\ (In s (unknown a) <-> In s a /\ Siegert_type s = Unknown)
  /\ (In s (even a) <-> In s a /\ parity s = Some Even)
  /\ (In s (odd a) <-> In s a /\ parity s = Some Odd).
Proof.
  unfold add, bounds, resonants, continuum, unknown, even, odd.
  split; [apply in_app_iff |].
  do 4 (split; [apply filter_by_type |]).
  split; apply filter_by_parity.
Qed.

End Facts.

End SiegpyFacts.


(** ** The files *)

Module SubmissionFacts.
Import Submission.

Local Open Scope string_scope.

Lemma mem_In (x : string) (l : list string) : mem x l = true -> In x l.
Proof.
  unfold mem. rewrite existsb_exists. intros (y & Hy & Heq).
  apply String.eqb_eq in Heq. now subst.
Qed.

Lemma In_mem (x : string) (l : list string) : In x l -> mem x l = true.
Proof.
  intros H. unfold mem. rewrite existsb_exists. exists x.
  split; [exact H | apply String.eqb_refl].
Qed.

(** The names defined with [def] or [class] in all the files. *)
Lemma defined_names_submission :
  defined_names submission
  = ["print_errors"; "SSE_errors"; "scatter_plot"; "scatter_plot"].
Proof. vm_compute. reflexivity. Qed.

Lemma forallb_In {A} (p : A -> bool) (l : list A) (x : A) :
  forallb p l = true -> In x l -> p x = true.
Proof. intros H. now apply (proj1 (forallb_forall p l) H). Qed.

(** C1.  Every file is a notebook file or is [setup.cfg].  The names
    defined in the files are the three helpers: none is [SWPotential],
    [Hamiltonian] or [SWPBasisSet], and none is a routine of the root search
    or of the propagation.  The three classes are imported from [siegpy]. *)
Theorem submission_defines_no_core :
  (forall f, In f submission -> is_notebook_file f = true \/ f = setup_cfg)
  /\ defined_names submission
     = ["print_errors"; "SSE_errors"; "scatter_plot"; "scatter_plot"]
  /\ (forall n, In n core_names -> ~ In n (defined_names submission))
  /\ (forall n, In n core_classes -> In n (siegpy_imports submission)).
Proof.
  split; [| split; [| split]].
  - intros f Hf. unfold submission in Hf. simpl In in Hf.
    destruct Hf as [<- | [<- | [<- | [<- | [<- | []]]]]];
      (left; reflexivity) || (right; reflexivity).
  - exact defined_names_submission.
  - intros n Hn Hd. apply In_mem in Hd.
    assert (Hall : forallb (fun n => negb (mem n (defined_names submission)))
                           core_names = true) by (vm_compute; reflexivity).
    pose proof (forallb_In _ _ n Hall Hn) as Hneg. cbv beta in Hneg.
    rewrite Hd in Hneg. discriminate Hneg.
  - intros n Hn. apply mem_In.
    assert (Hall : forallb (fun n => mem n (siegpy_imports submission))
                           core_classes = true) by (vm_compute; reflexivity).
    exact (forallb_In _ _ n Hall Hn).
Qed.

(** C2 as stated fails at the helper functions.  The file
    [src/unnamed/part_000] defines [print_errors] in a code cell: a function
    whose body calls [np.trapz] and [np.abs] and no plotting routine.  So the
    files do hold algorithmic source, and a code cell that is neither
    narrative nor a plotting call. *)
Lemma print_errors_is_algorithmic_source :
  (exists (f : file) (calls : list string),
     In f submission
     /\ path f = "src/unnamed/part_000"
     /\ In (FunctionDef "print_errors" calls) (statements f)
     /\ In "np.trapz" calls
     /\ In "np.abs" calls
     /\ existsb plotting_name calls = false)
  /\ ~ no_algorithmic_source submission
  /\ ~ only_narrative_and_plots submission.
Proof.
  assert (Hdef : exists (f : file) (calls : list string),
             In f submission
             /\ path f = "src/unnamed/part_000"
             /\ In (FunctionDef "print_errors" calls) (statements f)
             /\ In "np.trapz" calls
             /\ In "np.abs" calls
             /\ existsb plotting_name calls = false).
  { exists (nth 0 submission setup_cfg). eexists.
    split; [left; reflexivity |]. split; [reflexivity |].
    split; [right; right; left; reflexivity |].
    split; [apply mem_In; vm_compute; reflexivity |].
    split; [apply mem_In; vm_compute; reflexivity |].
    vm_compute. reflexivity. }
  split; [exact Hdef |].
  destruct Hdef as (f & calls & Hf & _ & Hs & _ & _ & Hnoplot).
  split.
  - intros H. specialize (H f _ Hf Hs). discriminate H.
  - intros H. specialize (H f _ Hf Hs). discriminate H.
Qed.

(** C2 (amended).  The only file that is not a notebook is [setup.cfg]. In
    the notebooks every statement of a code cell either drives the library
    (an import, an assignment, an expression statement such as a plotting
    call, a loop, a test, an assertion) or defines one of the three helper
    functions; [print_errors] computes its error norms with [np.trapz] and
    [np.abs]. *)
Theorem submission_drivers_and_helpers :
  (forall f, In f submission -> is_notebook_file f = false -> f = setup_cfg)
  /\ (forall f s, In f submission -> In s (statements f) ->
        is_driver_statement s = true \/ is_helper_definition s = true)
  /\ defined_names submission
     = ["print_errors"; "SSE_errors"; "scatter_plot"; "scatter_plot"]
  /\ In "np.trapz" (calls_in_def "print_errors" submission)
  /\ In "np.abs" (calls_in_def "print_errors" submission).
Proof.
  split; [| split; [| split; [| split]]].
  - intros f Hf. unfold submission in Hf. simpl In in Hf.
    destruct Hf as [<- | [<- | [<- | [<- | [<- | []]]]]];
      intros Hk; (discriminate Hk) || reflexivity.
  - intros f s Hf Hs.
    assert (Hall : forallb (fun f => forallb (fun s => is_driver_statement s
                                                || is_helper_definition s)
                                             (statements f))
                           submission = true) by (vm_compute; reflexivity).
    pose proof (forallb_In _ _ f Hall Hf) as Hf'. cbv beta in Hf'.
    pose proof (forallb_In _ _ s Hf' Hs) as Hs'. cbv beta in Hs'.
    now apply orb_true_iff in Hs'.
  - exact defined_names_submission.
  - apply mem_In. vm_compute. reflexivity.
  - apply mem_In. vm_compute. reflexivity.
Qed.

(** The file [setup.cfg] and the names [Hamiltonian] and [SWPBasisSet]
    meet the premises of the statement on the core. *)
Lemma submission_defines_no_core_witness :
  In setup_cfg submission
  /\ (is_notebook_file setup_cfg = true \/ setup_cfg = setup_cfg)
  /\ In "Hamiltonian" core_names
  /\ ~ In "Hamiltonian" (defined_names submission)
  /\ In "SWPBasisSet" core_classes
  /\ In "SWPBasisSet" (siegpy_imports submission).
Proof.
  destruct submission_defines_no_core as (Hfiles & _ & Hcore & Himports).
  assert (Hf : In setup_cfg submission) by (simpl; tauto).
  assert (Hn : In "Hamiltonian" core_names) by (simpl; tauto).
  assert (Hc : In "SWPBasisSet" core_classes) by (simpl; tauto).
  split; [exact Hf |].
  split; [exact (Hfiles _ Hf) |].
  split; [exact Hn |].
  split; [exact (Hcore _ Hn) |].
  split; [exact Hc | exact (Himports _ Hc)].
Defined.

(** The file [setup.cfg] is the one that is not a notebook. *)
Lemma submission_drivers_and_helpers_witness :
  In setup_cfg submission
  /\ is_notebook_file setup_cfg = false
  /\ setup_cfg = setup_cfg.
Proof.
  destruct submission_drivers_and_helpers as (Hfiles & _).
  assert (Hf : In setup_cfg submission) by (simpl; tauto).
  split; [exact Hf |].
  split; [reflexivity | exact (Hfiles _ Hf eq_refl)].
Defined.

End SubmissionFacts.

(** ** More on the effect monad *)

Section MonadMore.

Lemma bind_ext {E A B} (m : M E A) (f g : A -> M E B) :
  (forall a, f a = g a) -> bind m f = bind m g.
Proof.
  intros H. destruct m as [o [a | e]]; simpl; [now rewrite H | reflexivity].
Qed.

Lemma for_each_ext_in {E A S} (l : list A) (f g : A -> S -> M E S) :
  (forall x s, In x l -> f x s = g x s) ->
  forall s, for_each l f s = for_each l g s.
Proof.
  induction l as [| x l IH]; intros H s.
  - reflexivity.
  - cbn [for_each]. rewrite (H x s (or_introl eq_refl)).
    apply bind_ext. intros a. apply IH.
    intros y s' Hy. apply H. now right.
Qed.

Lemma Forall_out_bind {E A B} (P : E -> Prop) (m : M E A) (f : A -> M E B) :
  Forall P (out m) ->
  (forall a, Forall P (out (f a))) ->
  Forall P (out (bind m f)).
Proof.
  intros Hm Hf. rewrite out_bind. apply Forall_app. split; [exact Hm |].
  destruct (res m); [apply Hf | constructor].
Qed.

End MonadMore.

(** ** More on [print_errors] and [SSE_errors] *)

Module TimePropagationMore.
Import TimePropagation Tables TimePropagationFacts.

Section Facts.

Context {F C : Type} {Sc : Scalars F C}.

Lemma in_enumerate_lt {A} (l : list A) (i : nat) (x : A) :
  In (i, x) (enumerate l) -> i < List.length l.
Proof.
  unfold enumerate. intros H. apply in_combine_l in H.
  apply in_seq in H. lia.
Qed.

Lemma index_firstn {A} (l : list A) (n i : nat) :
  i < n -> index (firstn n l) i = index l i.
Proof.
  intros H. unfold index. rewrite nth_error_firstn.
  now rewrite (proj2 (Nat.ltb_lt i n) H).
Qed.

(** X4.  [print_errors] reads the arrays only at the indices of the global
    [time_grid]: rows beyond its length are ignored. *)
Theorem print_errors_ignores_extra_rows (time_grid : list F)
    (exact siegert_exp : list (list C)) (dx : F) :
  print_errors time_grid exact siegert_exp dx
  = print_errors time_grid
      (firstn (List.length time_grid) exact)
      (firstn (List.length time_grid) siegert_exp) dx.
Proof.
  unfold print_errors.
  do 3 (apply bind_ext; intros _).
  rewrite (for_each_ext_in (enumerate time_grid)
             (print_errors_row exact siegert_exp dx)
             (print_errors_row (firstn (List.length time_grid) exact)
                (firstn (List.length time_grid) siegert_exp) dx)).
  - reflexivity.
  - intros [i t] [] Hin. apply in_enumerate_lt in Hin.
    unfold print_errors_row.
    now rewrite !(index_firstn _ _ _ Hin).
Qed.

(** A pass that returns found both rows, with shapes that broadcast. *)
Lemma print_errors_row_inv (exact siegert_exp : list (list C)) (dx : F)
    (i : nat) (t : F) :
  res (print_errors_row exact siegert_exp dx (i, t) tt) = Ok tt ->
  exists exact_i siegert_exp_i,
    nth_error exact i = Some exact_i /\
    nth_error siegert_exp i = Some siegert_exp_i /\
    broadcastable (List.length exact_i) (List.length siegert_exp_i) = true.
Proof.
  unfold print_errors_row, index, np_sub. intros H.
  destruct (nth_error exact i) as [ei |]; [| simpl in H; discriminate H].
  destruct (nth_error siegert_exp i) as [si |]; [| simpl in H; discriminate H].
  rewrite !bind_lift_ok in H.
  destruct (broadcastable (List.length ei) (List.length si)) eqn:Hb;
    [| simpl in H; discriminate H].
  now exists ei, si.
Qed.

(** A pass on an index without a row in one of the arrays. *)
Lemma print_errors_row_missing (exact siegert_exp : list (list C)) (dx : F)
    (i : nat) (t : F) :
  nth_error exact i = None \/ nth_error siegert_exp i = None ->
  print_errors_row exact siegert_exp dx (i, t) tt = ([], Raise IndexError).
Proof.
  unfold print_errors_row, index.
  destruct (nth_error exact i) as [ei |]; [| reflexivity].
  intros [H | ->]; [discriminate H | reflexivity].
Qed.

(** A pass on rows whose shapes do not broadcast. *)
Lemma print_errors_row_mismatch (exact siegert_exp : list (list C)) (dx : F)
    (i : nat) (t : F) (exact_i siegert_exp_i : list C) :
  nth_error exact i = Some exact_i ->
  nth_error siegert_exp i = Some siegert_exp_i ->
  broadcastable (List.length exact_i) (List.length siegert_exp_i) = false ->
  print_errors_row exact siegert_exp dx (i, t) tt
  = ([], Raise (ValueError (broadcast_error (List.length exact_i)
                              (List.length siegert_exp_i)))).
Proof.
  intros He Hs Hb. unfold print_errors_row, index, np_sub.
  rewrite He, Hs. simpl. now rewrite Hb.
Qed.

(** The loop when the pass number [k] raises after [k] good passes. *)
Lemma print_errors_loop_raise (exact siegert_exp : list (list C)) (dx : F)
    (e : exn) :
  forall (l : list F) (off k : nat),
    k < List.length l ->
    (forall j, j < k ->
       exists exact_i siegert_exp_i,
         nth_error exact (off + j) = Some exact_i /\
         nth_error siegert_exp (off + j) = Some siegert_exp_i /\
         broadcastable (List.length exact_i) (List.length siegert_exp_i) = true) ->
    (forall t, print_errors_row exact siegert_exp dx (off + k, t) tt
               = ([], Raise e)) ->
    for_each (combine (seq off (List.length l)) l)
             (print_errors_row exact siegert_exp dx) tt
    = (map (table_row exact siegert_exp dx)
           (firstn k (combine (seq off (List.length l)) l)),
       Raise e).
Proof.
  induction l as [| t l IH]; intros off k Hk Hok Hbad.
  - simpl in Hk. lia.
  - cbn [List.length seq combine for_each].
    destruct k as [| k].
    + rewrite Nat.add_0_r in Hbad. now rewrite Hbad.
    + destruct (Hok 0) as (ei & si & He & Hs & Hb); [lia |].
      rewrite Nat.add_0_r in He, Hs.
      rewrite (print_errors_row_ok _ _ dx _ t _ _ He Hs Hb).
      rewrite bind_ok, (IH (S off) k).
      * reflexivity.
      * simpl in Hk. lia.
      * intros j Hj. replace (S off + j) with (off + S j) by lia.
        apply Hok. lia.
      * intros t'. replace (S off + k) with (off + S k) by lia. apply Hbad.
Qed.

Lemma print_errors_raise (time_grid : list F)
    (exact siegert_exp : list (list C)) (dx : F) (k : nat) (e : exn) :
  k < List.length time_grid ->
  rows_available (firstn k time_grid) exact siegert_exp ->
  (forall t, print_errors_row exact siegert_exp dx (k, t) tt = ([], Raise e)) ->
  print_errors time_grid exact siegert_exp dx
  = (partial_table k time_grid exact siegert_exp dx, Raise e).
Proof.
  intros Hk Hok Hbad. unfold print_errors, partial_table, enumerate.
  rewrite (print_errors_loop_raise exact siegert_exp dx e time_grid 0 k Hk).
  - reflexivity.
  - intros j Hj. apply Hok. rewrite length_firstn. lia.
  - exact Hbad.
Qed.

(** X2.  When both arrays have good rows for the first [k] times and one of
    them has no row [k], [print_errors] prints the header and [k] rows,
    then raises IndexError: the closing lines are not printed. *)
Theorem print_errors_stops_at_missing_row (time_grid : list F)
    (exact siegert_exp : list (list C)) (dx : F) (k : nat) :
  k < List.length time_grid ->
  rows_available (firstn k time_grid) exact siegert_exp ->
  nth_error exact k = None \/ nth_error siegert_exp k = None ->
  print_errors time_grid exact siegert_exp dx
  = (partial_table k time_grid exact siegert_exp dx, Raise IndexError).
Proof.
  intros Hk Hok Hmiss. apply print_errors_raise; [exact Hk | exact Hok |].
  intros t. now apply print_errors_row_missing.
Qed.

(** X3.  When the rows at index [k] are the first whose shapes do not
    broadcast, [print_errors] prints the header and [k] rows, then raises
    a ValueError, the one of the subtraction. *)
Theorem print_errors_stops_at_shape_mismatch (time_grid : list F)
    (exact siegert_exp : list (list C)) (dx : F) (k : nat)
    (exact_k siegert_exp_k : list C) :
  k < List.length time_grid ->
  rows_available (firstn k time_grid) exact siegert_exp ->
  nth_error exact k = Some exact_k ->
  nth_error siegert_exp k = Some siegert_exp_k ->
  broadcastable (List.length exact_k) (List.length siegert_exp_k) = false ->
  exists msg : string,
    print_errors time_grid exact siegert_exp dx
    = (partial_table k time_grid exact siegert_exp dx, Raise (ValueError msg)).
Proof.
  intros Hk Hok He Hs Hb.
  exists (broadcast_error (List.length exact_k) (List.length siegert_exp_k)).
  apply print_errors_raise; [exact Hk | exact Hok |].
  intros t. now apply (print_errors_row_mismatch _ _ dx k t exact_k siegert_exp_k).
Qed.

(** The loop returns only if every pass found its rows. *)
Lemma print_errors_loop_inv (exact siegert_exp : list (list C)) (dx : F) :
  forall (l : list F) (off : nat),
    res (for_each (combine (seq off (List.length l)) l)
                  (print_errors_row exact siegert_exp dx) tt) = Ok tt ->
    forall j, j < List.length l ->
      exists exact_i siegert_exp_i,
        nth_error exact (off + j) = Some exact_i /\
        nth_error siegert_exp (off + j) = Some siegert_exp_i /\
        broadcastable (List.length exact_i) (List.length siegert_exp_i) = true.
Proof.
  induction l as [| t l IH]; intros off H j Hj.
  - simpl in Hj. lia.
  - cbn [List.length seq combine for_each] in H. rewrite res_bind in H.
    destruct (res (print_errors_row exact siegert_exp dx (off, t) tt))
      as [[] |] eqn:Hrow; [| discriminate].
    destruct j as [| j].
    + rewrite Nat.add_0_r. now apply (print_errors_row_inv _ _ dx off t).
    + replace (off + S j) with (S off + j) by lia.
      apply IH; [exact H | simpl in Hj; lia].
Qed.

(** X1.  [print_errors] returns normally exactly when both arrays have a
    row for every index of the global [time_grid] and the rows at each
    index have shapes that broadcast. *)
Theorem print_errors_returns_iff (time_grid : list F)
    (exact siegert_exp : list (list C)) (dx : F) :
  res (print_errors time_grid exact siegert_exp dx) = Ok tt
  <-> rows_available time_grid exact siegert_exp.
Proof.
  split.
  - intros H. unfold print_errors in H.
    repeat (rewrite res_bind in H; cbn [res emit snd] in H).
    destruct (res (for_each _ _ _)) as [[] |] eqn:Hloop; [| discriminate].
    intros i Hi.
    exact (print_errors_loop_inv exact siegert_exp dx time_grid 0 Hloop i Hi).
  - intros H. unfold print_errors, enumerate.
    now rewrite (print_errors_loop exact siegert_exp dx time_grid 0 H).
Qed.

(** Everything [print_errors] prints is a rule, the title, an empty line
    or a row. *)
Lemma print_errors_events (time_grid : list F)
    (exact siegert_exp : list (list C)) (dx : F) :
  Forall is_table_event (out (print_errors time_grid exact siegert_exp dx)).
Proof.
  assert (Hloop : forall (l : list (nat * F)) (u : unit),
            Forall is_table_event
              (out (for_each l (print_errors_row exact siegert_exp dx) u))).
  { induction l as [| [i t] l IH]; intros u.
    - constructor.
    - cbn [for_each]. apply Forall_out_bind; [| exact IH].
      unfold print_errors_row, index, np_sub.
      destruct (nth_error exact i) as [ei |]; [| constructor].
      destruct (nth_error siegert_exp i) as [si |]; [| constructor].
      rewrite !bind_lift_ok.
      destruct (broadcastable (List.length ei) (List.length si));
        [| constructor].
      rewrite bind_lift_ok. repeat constructor. }
  unfold print_errors.
  repeat (apply Forall_out_bind; [| intros _]);
    try (repeat constructor; simpl; tauto).
  apply Hloop.
Qed.

Context {Wavefunction : Type} {Lib : Library F C Wavefunction}.

(** [SSE_errors] once the grid step is known: its three blocks in a row. *)
Lemma SSE_errors_blocks (global_time_grid : list F)
    (filename : string) (nres : nat) (k_max h_k : F) (nx : nat)
    (test_func : Wavefunction) (time_grid : list F) (exact MLE Ber : bool)
    (s0 : State F C) (rest : BasisSet F C) (x0 x1 : F) (xs : list F) :
  from_file filename (Some nres) = s0 :: rest ->
  linspace (f_div (f_neg (width (potential s0))) f_two)
           (f_div (width (potential s0)) f_two) nx = x0 :: x1 :: xs ->
  let xgrid := x0 :: x1 :: xs in
  let siegerts := map (set_grid xgrid) (s0 :: rest) in
  let cont := find_continuum_states (potential s0) k_max h_k (Some xgrid) in
  let basis := add cont (bounds siegerts) in
  let exact_tp := exact_propagation basis test_func time_grid in
  let dx := f_sub x1 x0 in
  SSE_errors global_time_grid filename nres k_max h_k nx test_func
             time_grid exact MLE Ber
  = bind (expansion_block (truthy basis) "         Exact Siegert"
            (print_errors global_time_grid exact_tp
               (exact_Siegert_propagation siegerts test_func time_grid) dx))
      (fun _ =>
         bind (expansion_block MLE "              MLE"
                 (print_errors global_time_grid exact_tp
                    (MLE_propagation siegerts test_func time_grid) dx))
           (fun _ =>
              expansion_block Ber "            Berggren"
                (print_errors global_time_grid exact_tp
                   (Berggren_propagation siegerts test_func time_grid) dx))).
Proof.
  intros Hfile Hgrid xgrid siegerts cont basis exact_tp dx.
  unfold SSE_errors. rewrite Hfile.
  change (index (s0 :: rest) 0) with (Ok s0).
  rewrite bind_lift_ok. cbv zeta. rewrite Hgrid.
  change (index (x0 :: x1 :: xs) 1) with (Ok x1).
  change (index (x0 :: x1 :: xs) 0) with (Ok x0).
  rewrite !bind_lift_ok.
  reflexivity.
Qed.

Lemma expansion_block_ok (flag : bool) (header : string)
    (tbl : M (stdout F) unit) (o : list (stdout F)) :
  (flag = true -> tbl = (o, Ok tt)) ->
  expansion_block flag header tbl = (table_section flag header o, Ok tt).
Proof.
  intros H. destruct flag; [| reflexivity].
  unfold expansion_block. now rewrite (H eq_refl).
Qed.

Lemma expansion_block_raise (header : string)
    (tbl : M (stdout F) unit) (e : exn) :
  res tbl = Raise e ->
  expansion_block true header tbl = (Print header :: out tbl, Raise e).
Proof.
  intros H. unfold expansion_block. destruct tbl as [o r].
  simpl in H. subst r. reflexivity.
Qed.

(** X5.  [SSE_errors] raises IndexError before printing anything when the
    data file holds no state ([siegerts[0]]) or when the grid has fewer
    than two points ([xgrid[1]]). *)
Theorem SSE_errors_fails_before_printing (global_time_grid : list F)
    (filename : string) (nres : nat) (k_max h_k : F) (nx : nat)
    (test_func : Wavefunction) (time_grid : list F) (exact MLE Ber : bool) :
  from_file filename (Some nres) = []
  \/ (exists s0 rest,
        from_file filename (Some nres) = s0 :: rest /\
        List.length (linspace (f_div (f_neg (width (potential s0))) f_two)
                              (f_div (width (potential s0)) f_two) nx) < 2) ->
  SSE_errors global_time_grid filename nres k_max h_k nx test_func
             time_grid exact MLE Ber
  = ([], Raise IndexError).
Proof.
  intros [Hfile | (s0 & rest & Hfile & Hgrid)]; unfold SSE_errors; rewrite Hfile.
  - reflexivity.
  - change (index (s0 :: rest) 0) with (Ok s0).
    rewrite bind_lift_ok. cbv zeta.
    destruct (linspace _ _ nx) as [| x0 [| x1 xs]]; try reflexivity.
    simpl in Hgrid. lia.
Qed.

(** X6.  Once the grid step is known, and when every table that is asked
    for finds its rows, [SSE_errors] returns after printing the blocks for
    the exact Siegert, MLE and Berggren expansions in this order: each is a
    header line and a full table against the same reference [exact_tp] and
    the same step [dx = xgrid[1] - xgrid[0]].  The first block is there when
    the basis set is not empty, the others when [MLE] and [Ber] are set. *)
Theorem SSE_errors_tables (global_time_grid : list F)
    (filename : string) (nres : nat) (k_max h_k : F) (nx : nat)
    (test_func : Wavefunction) (time_grid : list F) (exact MLE Ber : bool)
    (s0 : State F C) (rest : BasisSet F C) (x0 x1 : F) (xs : list F) :
  from_file filename (Some nres) = s0 :: rest ->
  linspace (f_div (f_neg (width (potential s0))) f_two)
           (f_div (width (potential s0)) f_two) nx = x0 :: x1 :: xs ->
  let xgrid := x0 :: x1 :: xs in
  let siegerts := map (set_grid xgrid) (s0 :: rest) in
  let cont := find_continuum_states (potential s0) k_max h_k (Some xgrid) in
  let basis := add cont (bounds siegerts) in
  let exact_tp := exact_propagation basis test_func time_grid in
  let exact_S_tp := exact_Siegert_propagation siegerts test_func time_grid in
  let MLE_tp := MLE_propagation siegerts test_func time_grid in
  let Ber_tp := Berggren_propagation siegerts test_func time_grid in
  let dx := f_sub x1 x0 in
  (truthy basis = true -> rows_available global_time_grid exact_tp exact_S_tp) ->
  (MLE = true -> rows_available global_time_grid exact_tp MLE_tp) ->
  (Ber = true -> rows_available global_time_grid exact_tp Ber_tp) ->
  SSE_errors global_time_grid filename nres k_max h_k nx test_func
             time_grid exact MLE Ber
  = (table_section (truthy basis) "         Exact Siegert"
       (table global_time_grid exact_tp exact_S_tp dx)
     ++ table_section MLE "              MLE"
          (table global_time_grid exact_tp MLE_tp dx)
     ++ table_section Ber "            Berggren"
          (table global_time_grid exact_tp Ber_tp dx),
     Ok tt).
Proof.
  intros Hfile Hgrid xgrid siegerts cont basis exact_tp exact_S_tp MLE_tp
         Ber_tp dx H1 H2 H3.
  rewrite (SSE_errors_blocks global_time_grid filename nres k_max h_k nx
             test_func time_grid exact MLE Ber s0 rest x0 x1 xs Hfile Hgrid).
  fold xgrid siegerts cont basis exact_tp exact_S_tp MLE_tp Ber_tp dx.
  rewrite (expansion_block_ok (truthy basis) _ _
             (table global_time_grid exact_tp exact_S_tp dx)
             (fun H => print_errors_ok _ _ _ dx (H1 H))).
  rewrite (expansion_block_ok MLE _ _
             (table global_time_grid exact_tp MLE_tp dx)
             (fun H => print_errors_ok _ _ _ dx (H2 H))).
  rewrite (expansion_block_ok Ber _ _
             (table global_time_grid exact_tp Ber_tp dx)
             (fun H => print_errors_ok _ _ _ dx (H3 H))).
  reflexivity.
Qed.

(** X7.  A table that raises ends the call.  When the exact Siegert table
    raises, [SSE_errors] raises the same exception after the header and
    what that table printed; when the first block went through and the
    MLE table raises, the same holds after the first block.  In both cases
    the later tables are not printed, even when asked for. *)
Theorem SSE_errors_stops_at_failing_table (global_time_grid : list F)
    (filename : string) (nres : nat) (k_max h_k : F) (nx : nat)
    (test_func : Wavefunction) (time_grid : list F) (exact MLE Ber : bool)
    (s0 : State F C) (rest : BasisSet F C) (x0 x1 : F) (xs : list F) (e : exn) :
  from_file filename (Some nres) = s0 :: rest ->
  linspace (f_div (f_neg (width (potential s0))) f_two)
           (f_div (width (potential s0)) f_two) nx = x0 :: x1 :: xs ->
  let xgrid := x0 :: x1 :: xs in
  let siegerts := map (set_grid xgrid) (s0 :: rest) in
  let cont := find_continuum_states (potential s0) k_max h_k (Some xgrid) in
  let basis := add cont (bounds siegerts) in
  let exact_tp := exact_propagation basis test_func time_grid in
  let exact_S_tp := exact_Siegert_propagation siegerts test_func time_grid in
  let MLE_tp := MLE_propagation siegerts test_func time_grid in
  let dx := f_sub x1 x0 in
  (truthy basis = true ->
   res (print_errors global_time_grid exact_tp exact_S_tp dx) = Raise e ->
   SSE_errors global_time_grid filename nres k_max h_k nx test_func
              time_grid exact MLE Ber
   = (Print "         Exact Siegert"
      :: out (print_errors global_time_grid exact_tp exact_S_tp dx),
      Raise e))
  /\
  ((truthy basis = true ->
    rows_available global_time_grid exact_tp exact_S_tp) ->
   MLE = true ->
   res (print_errors global_time_grid exact_tp MLE_tp dx) = Raise e ->
   SSE_errors global_time_grid filename nres k_max h_k nx test_func
              time_grid exact MLE Ber
   = (table_section (truthy basis) "         Exact Siegert"
        (table global_time_grid exact_tp exact_S_tp dx)
      ++ Print "              MLE"
         :: out (print_errors global_time_grid exact_tp MLE_tp dx),
      Raise e)).
Proof.
  intros Hfile Hgrid xgrid siegerts cont basis exact_tp exact_S_tp MLE_tp dx.
  rewrite (SSE_errors_blocks global_time_grid filename nres k_max h_k nx
             test_func time_grid exact MLE Ber s0 rest x0 x1 xs Hfile Hgrid).
  fold xgrid siegerts cont basis exact_tp exact_S_tp MLE_tp dx.
  split.
  - intros Hb Hraise. rewrite Hb.
    rewrite (expansion_block_raise _ _ e Hraise). reflexivity.
  - intros H1 -> Hraise.
    rewrite (expansion_block_ok (truthy basis) _ _
               (table global_time_grid exact_tp exact_S_tp dx)
               (fun H => print_errors_ok _ _ _ dx (H1 H))).
    rewrite (expansion_block_raise _ _ e Hraise).
    rewrite bind_ok. reflexivity.
Qed.

(** X8.  When the basis set [cont + siegerts.bounds] is empty, the header
    of the exact Siegert table is never printed, whatever is passed for
    [exact], [MLE] and [Ber] and whether or not the other tables raise. *)
Theorem SSE_errors_empty_basis_no_exact_table (global_time_grid : list F)
    (filename : string) (nres : nat) (k_max h_k : F) (nx : nat)
    (test_func : Wavefunction) (time_grid : list F) (exact MLE Ber : bool)
    (s0 : State F C) (rest : BasisSet F C) (x0 x1 : F) (xs : list F) :
  from_file filename (Some nres) = s0 :: rest ->
  linspace (f_div (f_neg (width (potential s0))) f_two)
           (f_div (width (potential s0)) f_two) nx = x0 :: x1 :: xs ->
  let xgrid := x0 :: x1 :: xs in
  let siegerts := map (set_grid xgrid) (s0 :: rest) in
  let cont := find_continuum_states (potential s0) k_max h_k (Some xgrid) in
  add cont (bounds siegerts) = [] ->
  ~ In (Print "         Exact Siegert")
       (out (SSE_errors global_time_grid filename nres k_max h_k nx test_func
                        time_grid exact MLE Ber)).
Proof.
  intros Hfile Hgrid xgrid siegerts cont Hempty.
  rewrite (SSE_errors_blocks global_time_grid filename nres k_max h_k nx
             test_func time_grid exact MLE Ber s0 rest x0 x1 xs Hfile Hgrid).
  fold xgrid siegerts cont. rewrite Hempty.
  change (truthy (@nil (State F C))) with false.
  set (other := fun e : stdout F => e <> Print "         Exact Siegert").
  assert (Htable : forall tg a b d, Forall other (out (print_errors tg a b d))).
  { intros tg a b d.
    refine (Forall_impl _ _ (print_errors_events tg a b d)).
    intros [s0' | t a' r] Hev; unfold other; [| discriminate].
    intros Heq. injection Heq as ->.
    destruct Hev as [Hev | [Hev | Hev]]; discriminate Hev. }
  assert (Hblock : forall flag h tbl,
            h <> "         Exact Siegert"%string ->
            Forall other (out tbl) ->
            Forall other (out (expansion_block flag h tbl))).
  { intros flag h tbl Hh Htbl. destruct flag; [| constructor].
    unfold expansion_block. apply Forall_out_bind; [| intros _; exact Htbl].
    repeat constructor. unfold other. intros Heq. injection Heq as ->.
    now apply Hh. }
  assert (Hall : Forall other
            (out (bind (expansion_block false "         Exact Siegert"
                          (print_errors global_time_grid
                             (exact_propagation [] test_func time_grid)
                             (exact_Siegert_propagation siegerts test_func time_grid)
                             (f_sub x1 x0)))
                    (fun _ =>
                       bind (expansion_block MLE "              MLE"
                               (print_errors global_time_grid
                                  (exact_propagation [] test_func time_grid)
                                  (MLE_propagation siegerts test_func time_grid)
                                  (f_sub x1 x0)))
                         (fun _ =>
                            expansion_block Ber "            Berggren"
                              (print_errors global_time_grid
                                 (exact_propagation [] test_func time_grid)
                                 (Berggren_propagation siegerts test_func time_grid)
                                 (f_sub x1 x0))))))).
  { apply Forall_out_bind; [constructor | intros _].
    apply Forall_out_bind; [| intros _];
      (apply Hblock; [discriminate | apply Htable]). }
  intros Hin. exact (proj1 (Forall_forall _ _) Hall _ Hin eq_refl).
Qed.

(** X9.  Once the grid step is known, when the basis set
    [cont + siegerts.bounds] is not empty, the reference array [exact_tp]
    has fewer rows than the global [time_grid] has entries, and [exact_S_tp]
    has a row that broadcasts for each row of [exact_tp], the exact Siegert
    table stops after the rows of [exact_tp] with IndexError and nothing
    else is printed. *)
Theorem SSE_errors_short_reference (global_time_grid : list F)
    (filename : string) (nres : nat) (k_max h_k : F) (nx : nat)
    (test_func : Wavefunction) (time_grid : list F) (exact MLE Ber : bool)
    (s0 : State F C) (rest : BasisSet F C) (x0 x1 : F) (xs : list F) :
  from_file filename (Some nres) = s0 :: rest ->
  linspace (f_div (f_neg (width (potential s0))) f_two)
           (f_div (width (potential s0)) f_two) nx = x0 :: x1 :: xs ->
  let xgrid := x0 :: x1 :: xs in
  let siegerts := map (set_grid xgrid) (s0 :: rest) in
  let cont := find_continuum_states (potential s0) k_max h_k (Some xgrid) in
  let basis := add cont (bounds siegerts) in
  let exact_tp := exact_propagation basis test_func time_grid in
  let exact_S_tp := exact_Siegert_propagation siegerts test_func time_grid in
  let dx := f_sub x1 x0 in
  basis <> [] ->
  List.length exact_tp < List.length global_time_grid ->
  rows_available (firstn (List.length exact_tp) global_time_grid)
                 exact_tp exact_S_tp ->
  SSE_errors global_time_grid filename nres k_max h_k nx test_func
             time_grid exact MLE Ber
  = (Print "         Exact Siegert"
     :: partial_table (List.length exact_tp) global_time_grid
          exact_tp exact_S_tp dx,
     Raise IndexError).
Proof.
  intros Hfile Hgrid xgrid siegerts cont basis exact_tp exact_S_tp dx
         Hne Hshort Hrows.
  rewrite (SSE_errors_blocks global_time_grid filename nres k_max h_k nx
             test_func time_grid exact MLE Ber s0 rest x0 x1 xs Hfile Hgrid).
  fold xgrid siegerts cont basis exact_tp exact_S_tp dx.
  rewrite (truthy_nonempty basis Hne).
  assert (Hpe : print_errors global_time_grid exact_tp exact_S_tp dx
                = (partial_table (List.length exact_tp) global_time_grid
                     exact_tp exact_S_tp dx, Raise IndexError)).
  { apply print_errors_raise; [exact Hshort | exact Hrows |].
    intros t. apply print_errors_row_missing. left.
    apply nth_error_None. lia. }
  rewrite (expansion_block_raise _ _ IndexError (f_equal snd Hpe)).
  now rewrite Hpe.
Qed.

End Facts.

(** *** Runs on the symbolic scalars *)

Import Symbolic SymbolicFiles.

Lemma rows_available_two_times (a b : Q) :
  rows_available two_times (rows a two_times) (rows b two_times).
Proof.
  intros i Hi. destruct i as [| [| i]].
  - do 2 eexists. repeat split; reflexivity.
  - do 2 eexists. repeat split; reflexivity.
  - simpl in Hi. lia.
Qed.

Lemma rows_available_one_time (a b : Q) (tg : list sym) :
  rows_available (firstn 1 two_times) (rows a (Lit 0 :: tg)) (rows b (Lit 0 :: tg)).
Proof.
  intros i Hi. destruct i as [| i].
  - do 2 eexists. repeat split; reflexivity.
  - simpl in Hi. lia.
Qed.

(** Two times, arrays of one row: one row is printed before the raise. *)
Lemma print_errors_stops_at_missing_row_witness :
  1 < List.length two_times
  /\ rows_available (firstn 1 two_times) (rows 1 one_time) (rows 2 one_time)
  /\ (nth_error (rows 1 one_time) 1 = None
      \/ nth_error (rows 2 one_time) 1 = None)
  /\ print_errors two_times (rows 1 one_time) (rows 2 one_time) step3
     = (partial_table 1 two_times (rows 1 one_time) (rows 2 one_time) step3,
        Raise IndexError).
Proof.
  assert (H1 : 1 < List.length two_times) by (simpl; lia).
  pose proof (rows_available_one_time 1 2 []) as H2.
  assert (H3 : nth_error (rows 1 one_time) 1 = None
               \/ nth_error (rows 2 one_time) 1 = None) by (left; reflexivity).
  split; [exact H1 |]. split; [exact H2 |]. split; [exact H3 |].
  exact (print_errors_stops_at_missing_row two_times (rows 1 one_time)
           (rows 2 one_time) step3 1 H1 H2 H3).
Defined.

(** Two times, second rows of three and two grid points. *)
Lemma print_errors_stops_at_shape_mismatch_witness :
  1 < List.length two_times
  /\ rows_available (firstn 1 two_times)
       [[Lit 1; Lit 2]; [Lit 1; Lit 2; Lit 3]] [[Lit 1; Lit 1]; [Lit 1; Lit 1]]
  /\ broadcastable 3 2 = false
  /\ exists msg : string,
       print_errors two_times
         [[Lit 1; Lit 2]; [Lit 1; Lit 2; Lit 3]] [[Lit 1; Lit 1]; [Lit 1; Lit 1]]
         step3
       = (partial_table 1 two_times
            [[Lit 1; Lit 2]; [Lit 1; Lit 2; Lit 3]] [[Lit 1; Lit 1]; [Lit 1; Lit 1]]
            step3,
          Raise (ValueError msg)).
Proof.
  assert (H1 : 1 < List.length two_times) by (simpl; lia).
  assert (H2 : rows_available (firstn 1 two_times)
                 [[Lit 1; Lit 2]; [Lit 1; Lit 2; Lit 3]]
                 [[Lit 1; Lit 1]; [Lit 1; Lit 1]]).
  { intros i Hi. destruct i as [| i].
    - do 2 eexists. repeat split; reflexivity.
    - simpl in Hi. lia. }
  split; [exact H1 |]. split; [exact H2 |]. split; [reflexivity |].
  exact (print_errors_stops_at_shape_mismatch two_times _ _ step3 1
           [Lit 1; Lit 2; Lit 3] [Lit 1; Lit 1] H1 H2 eq_refl eq_refl eq_refl).
Defined.

(** A data file without states, and a grid of one point. *)
Lemma SSE_errors_fails_before_printing_witness :
  SSE_errors (Lib := empty_file_library) two_times "siegerts.dat" 50
             (Lit 40) (Lit (1 # 100)) 201 tt two_times true true true
  = ([], Raise IndexError)
  /\ SSE_errors (Lib := sym_library) two_times "siegerts.dat" 50
                (Lit 40) (Lit (1 # 100)) 1 tt two_times true true true
     = ([], Raise IndexError).
Proof.
  split.
  - apply (SSE_errors_fails_before_printing (Lib := empty_file_library)).
    left. reflexivity.
  - apply (SSE_errors_fails_before_printing (Lib := sym_library)).
    right. exists (state Bound (Some Even) 1), [state Resonant (Some Odd) 2].
    split; [reflexivity | simpl; lia].
Defined.

(** The call of the notebook in small: the global grid is the argument. *)
Lemma SSE_errors_tables_witness :
  rows_available two_times (rows 1 two_times) (rows 2 two_times)
  /\ rows_available two_times (rows 1 two_times) (rows 3 two_times)
  /\ rows_available two_times (rows 1 two_times) (rows 4 two_times)
  /\ SSE_errors (Lib := sym_library) two_times "siegerts.dat" 50
                (Lit 40) (Lit (1 # 100)) 3 tt two_times false true true
     = (table_section true "         Exact Siegert"
          (table two_times (rows 1 two_times) (rows 2 two_times) step3)
        ++ table_section true "              MLE"
             (table two_times (rows 1 two_times) (rows 3 two_times) step3)
        ++ table_section true "            Berggren"
             (table two_times (rows 1 two_times) (rows 4 two_times) step3),
        Ok tt).
Proof.
  pose proof (rows_available_two_times 1 2) as H1.
  pose proof (rows_available_two_times 1 3) as H2.
  pose proof (rows_available_two_times 1 4) as H3.
  split; [exact H1 |]. split; [exact H2 |]. split; [exact H3 |].
  exact (SSE_errors_tables (Lib := sym_library) two_times "siegerts.dat" 50
           (Lit 40) (Lit (1 # 100)) 3 tt two_times false true true
           (state Bound (Some Even) 1) [state Resonant (Some Odd) 2]
           _ _ _ eq_refl eq_refl (fun _ => H1) (fun _ => H2) (fun _ => H3)).
Defined.

(** A global grid of two times with an argument of one time stops the
    first table; a Mittag-Leffler propagation without rows stops the
    second. *)
Lemma SSE_errors_stops_at_failing_table_witness :
  SSE_errors (Lib := sym_library) two_times "siegerts.dat" 50
             (Lit 40) (Lit (1 # 100)) 3 tt one_time true true true
  = (Print "         Exact Siegert"
     :: out (print_errors two_times (rows 1 one_time) (rows 2 one_time) step3),
     Raise IndexError)
  /\ SSE_errors (Lib := short_MLE_library) two_times "siegerts.dat" 50
                (Lit 40) (Lit (1 # 100)) 3 tt two_times true true true
     = (table_section true "         Exact Siegert"
          (table two_times (rows 1 two_times) (rows 2 two_times) step3)
        ++ Print "              MLE"
           :: out (print_errors two_times (rows 1 two_times) [] step3),
        Raise IndexError).
Proof.
  split.
  - exact (proj1 (SSE_errors_stops_at_failing_table (Lib := sym_library)
                    two_times "siegerts.dat" 50 (Lit 40) (Lit (1 # 100)) 3 tt
                    one_time true true true
                    (state Bound (Some Even) 1) [state Resonant (Some Odd) 2]
                    _ _ _ IndexError eq_refl eq_refl)
             eq_refl eq_refl).
  - exact (proj2 (SSE_errors_stops_at_failing_table (Lib := short_MLE_library)
                    two_times "siegerts.dat" 50 (Lit 40) (Lit (1 # 100)) 3 tt
                    two_times true true true
                    (state Bound (Some Even) 1) [state Resonant (Some Odd) 2]
                    _ _ _ IndexError eq_refl eq_refl)
             (fun _ => rows_available_two_times 1 2) eq_refl eq_refl).
Defined.

(** A data file with a resonant state only and an empty continuum: with
    [exact=True] the header is still not printed. *)
Lemma SSE_errors_empty_basis_no_exact_table_witness :
  ~ In (Print "         Exact Siegert")
       (out (SSE_errors (Lib := resonant_only_library) two_times "siegerts.dat"
               50 (Lit 40) (Lit (1 # 100)) 3 tt two_times true true true)).
Proof.
  exact (SSE_errors_empty_basis_no_exact_table (Lib := resonant_only_library)
           two_times "siegerts.dat" 50 (Lit 40) (Lit (1 # 100)) 3 tt two_times
           true true true (state Resonant (Some Odd) 2) []
           _ _ _ eq_refl eq_refl eq_refl).
Defined.

(** A global grid of two times with an argument of one time. *)
Lemma SSE_errors_short_reference_witness :
  List.length (rows 1 one_time) < List.length two_times
  /\ rows_available (firstn 1 two_times) (rows 1 one_time) (rows 2 one_time)
  /\ SSE_errors (Lib := sym_library) two_times "siegerts.dat" 50
                (Lit 40) (Lit (1 # 100)) 3 tt one_time true true true
     = (Print "         Exact Siegert"
        :: partial_table 1 two_times (rows 1 one_time) (rows 2 one_time) step3,
        Raise IndexError).
Proof.
  assert (H1 : List.length (rows 1 one_time) < List.length two_times)
    by (simpl; lia).
  pose proof (rows_available_one_time 1 2 []) as H2.
  split; [exact H1 |]. split; [exact H2 |].
  refine (SSE_errors_short_reference (Lib := sym_library) two_times
            "siegerts.dat" 50 (Lit 40) (Lit (1 # 100)) 3 tt one_time
            true true true
            (state Bound (Some Even) 1) [state Resonant (Some Odd) 2]
            _ _ _ eq_refl eq_refl _ H1 H2).
  discriminate.
Defined.

End TimePropagationMore.

(** ** More on [scatter_plot] *)

Module ScatterPlotMore.
Import ScatterPlot Plots ScatterPlotFacts.

Section Facts.

Context {F C : Type} {Sc : Scalars F C}.

Lemma nonempty_rev_map {A B} (f : A -> B) (l : list A) :
  nonempty (rev (map f l)) = nonempty l.
Proof.
  destruct l as [| x l]; [reflexivity |].
  simpl. now destruct (rev (map f l)).
Qed.

Lemma nonempty_true {A} (l : list A) : nonempty l = true <-> l <> [].
Proof. destruct l; simpl; split; congruence. Qed.

(** With a good keyword the label depends on the keyword only, and the
    data are empty exactly when there is no state to plot. *)
Lemma select_data_good_shape (data_kwd : string) :
  ~ bad_data_kwd data_kwd ->
  exists label : string,
    forall to_plot : BasisSet F C,
      exists data : list C,
        select_data data_kwd to_plot = Ok (label, data)
        /\ nonempty data = nonempty to_plot.
Proof.
  intros Hgood. unfold select_data.
  destruct (String.eqb_spec data_kwd "wavenumbers"%string) as [| Hw].
  - exists "k"%string. intros tp. eexists. split; [reflexivity |].
    apply nonempty_rev_map.
  - destruct (String.eqb_spec data_kwd "energies"%string) as [| He].
    + exists "E"%string. intros tp. eexists. split; [reflexivity |].
      apply nonempty_rev_map.
    + exfalso. apply Hgood. now split.
Qed.

Lemma index_markers (i : nat) :
  index markers i = Raise IndexError <-> List.length markers <= i.
Proof.
  unfold index. split.
  - destruct (nth_error markers i) eqn:Hn; [discriminate |].
    intros _. now apply nth_error_None.
  - intros H. now rewrite (proj2 (nth_error_None markers i) H).
Qed.

(** With a good keyword a pass raises IndexError when it asks for a fifth
    marker, and binds the label otherwise. *)
Lemma plot_basis_good_res (data_kwd : string) (show_unknown : bool)
    (vmin vmax : F) :
  ~ bad_data_kwd data_kwd ->
  exists label : string,
    forall (ib : nat * BasisSet F C) (d : option string),
      res (plot_basis data_kwd show_unknown vmin vmax ib d)
      = if beyond_markers show_unknown ib then Raise IndexError
        else Ok (Some label).
Proof.
  intros Hgood.
  destruct (select_data_good_shape data_kwd Hgood) as [label Hsel].
  exists label. intros [i b] d.
  unfold plot_basis, beyond_markers. cbn [fst snd].
  destruct (Hsel (states_to_plot show_unknown b)) as (data & -> & <-).
  rewrite bind_lift_ok.
  destruct (nonempty data).
  - rewrite andb_true_r.
    destruct (Nat.leb_spec (List.length markers) i) as [Hle | Hlt].
    + now rewrite (proj2 (index_markers i) Hle).
    + unfold index.
      destruct (nth_error markers i) eqn:Hn; [reflexivity |].
      apply nth_error_None in Hn. lia.
  - now rewrite andb_false_r.
Qed.

Lemma plot_loop_good_res (data_kwd : string) (show_unknown : bool)
    (vmin vmax : F) :
  ~ bad_data_kwd data_kwd ->
  exists label : string,
    forall (l : list (nat * BasisSet F C)) (d : option string),
      res (for_each l (plot_basis data_kwd show_unknown vmin vmax) d)
      = if existsb (beyond_markers show_unknown) l then Raise IndexError
        else Ok (match l with
                 | [] => d
                 | _ :: _ => Some label
                 end).
Proof.
  intros Hgood.
  destruct (plot_basis_good_res data_kwd show_unknown vmin vmax Hgood)
    as [label Hpass].
  exists label. induction l as [| ib l IH]; intros d.
  - reflexivity.
  - cbn [for_each existsb]. rewrite res_bind, Hpass.
    destruct (beyond_markers show_unknown ib); [reflexivity |].
    cbn [orb]. rewrite IH.
    destruct (existsb (beyond_markers show_unknown) l); [reflexivity |].
    now destruct l.
Qed.

Lemma in_combine_seq {A} (l : list A) :
  forall (k i : nat) (x : A),
    In (i, x) (combine (seq k (List.length l)) l)
    <-> k <= i /\ nth_error l (i - k) = Some x.
Proof.
  induction l as [| y l IH]; intros k i x.
  - simpl. split; [tauto |]. intros [_ H]. now destruct (i - k).
  - cbn [List.length seq combine In]. rewrite IH. split.
    + intros [Heq | [Hle Hn]].
      * injection Heq as <- <-. split; [lia |]. now rewrite Nat.sub_diag.
      * split; [lia |]. replace (i - k) with (S (i - S k)) by lia. exact Hn.
    + intros [Hle Hn]. destruct (Nat.eq_dec k i) as [<- | Hne].
      * rewrite Nat.sub_diag in Hn. left. now injection Hn as <-.
      * right. split; [lia |].
        replace (i - k) with (S (i - S k)) in Hn by lia. exact Hn.
Qed.

Lemma in_enumerate_iff {A} (l : list A) (i : nat) (x : A) :
  In (i, x) (enumerate l) <-> nth_error l i = Some x.
Proof.
  unfold enumerate. rewrite in_combine_seq, Nat.sub_0_r.
  split; [tauto | split; [lia | assumption]].
Qed.

(** Some pass asks for a fifth marker exactly when a basis set at index
    four or more has states to plot. *)
Lemma beyond_markers_iff (show_unknown : bool) (basissets : list (BasisSet F C)) :
  existsb (beyond_markers show_unknown) (enumerate basissets) = true
  <-> exists i b, nth_error basissets i = Some b /\ 4 <= i
                  /\ states_to_plot show_unknown b <> [].
Proof.
  rewrite existsb_exists. unfold beyond_markers. split.
  - intros ([i b] & Hin & Hb). apply in_enumerate_iff in Hin.
    apply andb_true_iff in Hb as [Hle Hne]. cbn [fst snd] in *.
    exists i, b. split; [exact Hin |]. split.
    + now apply Nat.leb_le in Hle.
    + now apply nonempty_true.
  - intros (i & b & Hin & Hle & Hne). exists (i, b).
    split; [now apply in_enumerate_iff |].
    apply andb_true_iff. cbn [fst snd]. split.
    + now apply Nat.leb_le.
    + now apply nonempty_true.
Qed.

(** With states and a good keyword, [scatter_plot_axes] returns unless a
    fifth marker is asked for. *)
Lemma scatter_plot_axes_good (data_kwd : string) (basissets : list (BasisSet F C))
    (xlim ylim : option (F * F)) (title : option string) (show_unknown : bool) :
  all_states basissets <> [] ->
  ~ bad_data_kwd data_kwd ->
  res (scatter_plot_axes data_kwd basissets xlim ylim title show_unknown)
  = if existsb (beyond_markers show_unknown) (enumerate basissets)
    then Raise IndexError else Ok tt.
Proof.
  intros Hne Hgood.
  destruct (scatter_plot_axes_res data_kwd basissets xlim ylim title
              show_unknown Hne) as (vmin & vmax & ->).
  destruct (plot_loop_good_res data_kwd show_unknown vmin vmax Hgood)
    as [label ->].
  destruct (existsb _ _); [reflexivity |].
  destruct basissets as [| b bs]; [now contradiction Hne | reflexivity].
Qed.

(** X10.  For a list of basis sets with at least one state in total and a
    good keyword, both copies of [scatter_plot] raise the IndexError of
    [markers[i]] exactly when a basis set at index four or more (a fifth one
    or later) has states to plot: there are four markers only. *)
Theorem scatter_plot_four_markers (data_kwd : string)
    (basissets : list (BasisSet F C))
    (xlim ylim : option (F * F)) (title file_save : option string)
    (show_unknown : bool) :
  all_states basissets <> [] ->
  ~ bad_data_kwd data_kwd ->
  let fifth := exists i b, nth_error basissets i = Some b /\ 4 <= i
                           /\ states_to_plot show_unknown b <> [] in
  (res (GaussianPotentials.scatter_plot data_kwd basissets
          xlim ylim title file_save show_unknown) = Raise IndexError
   <-> fifth)
  /\ (res (WoodsSaxon.scatter_plot data_kwd basissets
             xlim ylim title file_save show_unknown) = Raise IndexError
      <-> fifth).
Proof.
  intros Hne Hgood fifth.
  rewrite gaussian_scatter_plot_res, woods_saxon_scatter_plot_res.
  rewrite (scatter_plot_axes_good data_kwd basissets xlim ylim title
             show_unknown Hne Hgood).
  pose proof (beyond_markers_iff show_unknown basissets) as Hiff.
  fold fifth in Hiff.
  destruct (existsb _ _).
  - assert (Hf : fifth) by now apply Hiff.
    repeat split; tauto.
  - assert (Hf : ~ fifth) by (intros H; apply Hiff in H; discriminate H).
    repeat split; try tauto; discriminate.
Qed.

(** How [scatter_plot_axes] can end on a list of basis sets. *)
Lemma scatter_plot_axes_outcomes (data_kwd : string)
    (basissets : list (BasisSet F C))
    (xlim ylim : option (F * F)) (title : option string) (show_unknown : bool) :
  let r := res (scatter_plot_axes data_kwd basissets xlim ylim title
                  show_unknown) in
  r = Ok tt
  \/ r = Raise (ValueError zero_size_min)
  \/ r = Raise (ValueError (data_kwd_error data_kwd))
  \/ r = Raise IndexError.
Proof.
  cbv zeta.
  destruct (all_states basissets) as [| s ss] eqn:Hall.
  - right. left.
    now apply scatter_plot_axes_no_state.
  - assert (Hne : all_states basissets <> []) by (rewrite Hall; discriminate).
    destruct (bad_data_kwd_dec data_kwd) as [Hbad | Hgood].
    + right. right. left.
      now apply (scatter_plot_axes_iff data_kwd basissets xlim ylim title
                   show_unknown Hne).
    + rewrite (scatter_plot_axes_good data_kwd basissets xlim ylim title
                 show_unknown Hne Hgood).
      destruct (existsb _ _); tauto.
Qed.

(** X11.  On a list of basis sets, neither copy of [scatter_plot] reads
    [data_label] unbound after the loop: no call raises UnboundLocalError.
    An empty list, or basis sets without any state, stop at [np.min] before
    the loop; otherwise the first pass binds the label or raises. *)
Theorem scatter_plot_label_bound (data_kwd : string)
    (basissets : list (BasisSet F C))
    (xlim ylim : option (F * F)) (title file_save : option string)
    (show_unknown : bool) (name : string) :
  res (GaussianPotentials.scatter_plot data_kwd basissets
         xlim ylim title file_save show_unknown)
  <> Raise (UnboundLocalError name)
  /\ res (WoodsSaxon.scatter_plot data_kwd basissets
            xlim ylim title file_save show_unknown)
     <> Raise (UnboundLocalError name).
Proof.
  rewrite gaussian_scatter_plot_res, woods_saxon_scatter_plot_res.
  pose proof (scatter_plot_axes_outcomes data_kwd basissets xlim ylim title
                show_unknown) as H.
  cbv zeta in H.
  split; destruct H as [-> | [-> | [-> | ->]]]; discriminate.
Qed.

(** X12.  The two copies of [scatter_plot] end the same way, and make the
    same calls when no file is to be saved.  With a file to save, a call
    that returns differs only in its last three calls: the Gaussian copy
    saves the figure before drawing the legend, the Woods-Saxon copy
    after. *)
Theorem scatter_plot_copies (data_kwd : string)
    (basissets : list (BasisSet F C))
    (xlim ylim : option (F * F)) (title file_save : option string)
    (show_unknown : bool) :
  let gaussian := GaussianPotentials.scatter_plot data_kwd basissets
                    xlim ylim title file_save show_unknown in
  let woods_saxon := WoodsSaxon.scatter_plot data_kwd basissets
                       xlim ylim title file_save show_unknown in
  res woods_saxon = res gaussian
  /\ (file_save = None -> woods_saxon = gaussian)
  /\ (forall file, file_save = Some file -> res gaussian = Ok tt ->
        exists before,
          out gaussian = before ++ [SaveFig file; Legend; Show]
          /\ out woods_saxon = before ++ [Legend; SaveFig file; Show]).
Proof.
  intros gaussian woods_saxon. subst gaussian woods_saxon.
  split; [| split].
  - now rewrite gaussian_scatter_plot_res, woods_saxon_scatter_plot_res.
  - intros ->. unfold GaussianPotentials.scatter_plot, WoodsSaxon.scatter_plot.
    apply bind_ext. intros []. reflexivity.
  - intros file -> Hok. rewrite gaussian_scatter_plot_res in Hok.
    unfold GaussianPotentials.scatter_plot, WoodsSaxon.scatter_plot.
    exists (out (scatter_plot_axes data_kwd basissets xlim ylim title
                   show_unknown)).
    rewrite !out_bind, Hok. split; reflexivity.
Qed.

(** The calls of [scatter_plot_axes] are not closing calls. *)
Lemma scatter_plot_axes_events (data_kwd : string)
    (basissets : list (BasisSet F C))
    (xlim ylim : option (F * F)) (title : option string) (show_unknown : bool) :
  Forall (fun ev => closing ev = false)
         (out (scatter_plot_axes data_kwd basissets xlim ylim title show_unknown)).
Proof.
  assert (Hloop : forall vmin vmax (l : list (nat * BasisSet F C)) d,
            Forall (fun ev => closing ev = false)
              (out (for_each l (plot_basis data_kwd show_unknown vmin vmax) d))).
  { intros vmin vmax. induction l as [| [i b] l IH]; intros d.
    - constructor.
    - cbn [for_each]. apply Forall_out_bind; [| exact IH].
      unfold plot_basis.
      apply Forall_out_bind; [constructor | intros [label data]].
      apply Forall_out_bind; [| intros _; constructor].
      destruct (nonempty data); [| constructor].
      apply Forall_out_bind; [constructor | intros marker].
      repeat constructor. }
  unfold scatter_plot_axes.
  repeat (apply Forall_out_bind; [| intros ?]);
    try apply Hloop;
    try (unfold when_given;
         match goal with |- context [match ?x with _ => _ end] => destruct x end);
    repeat constructor.
Qed.

(** X13.  Without a file to save ([file_save=None]), a call to
    [scatter_plot] that raises has not drawn the legend or shown the figure:
    it stopped before the closing calls.  A call that returns, with or
    without a file to save, has shown the figure as its last call. *)
Theorem scatter_plot_closing_calls (data_kwd : string)
    (basissets : list (BasisSet F C))
    (xlim ylim : option (F * F)) (title file_save : option string)
    (show_unknown : bool) :
  (file_save = None ->
   forall e,
     res (GaussianPotentials.scatter_plot data_kwd basissets
            xlim ylim title file_save show_unknown) = Raise e ->
     Forall (fun ev => closing ev = false)
            (out (GaussianPotentials.scatter_plot data_kwd basissets
                    xlim ylim title file_save show_unknown))
     /\ Forall (fun ev => closing ev = false)
               (out (WoodsSaxon.scatter_plot data_kwd basissets
                       xlim ylim title file_save show_unknown)))
  /\ (res (GaussianPotentials.scatter_plot data_kwd basissets
             xlim ylim title file_save show_unknown) = Ok tt ->
        (exists before,
           out (GaussianPotentials.scatter_plot data_kwd basissets
                  xlim ylim title file_save show_unknown) = before ++ [Show])
        /\ (exists before,
              out (WoodsSaxon.scatter_plot data_kwd basissets
                     xlim ylim title file_save show_unknown) = before ++ [Show])).
Proof.
  pose proof (scatter_plot_axes_events data_kwd basissets xlim ylim title
                show_unknown) as Hev.
  rewrite gaussian_scatter_plot_res.
  unfold GaussianPotentials.scatter_plot, WoodsSaxon.scatter_plot.
  split.
  - intros _ e He. rewrite !out_bind, He, !app_nil_r. now split.
  - intros Hok. rewrite !out_bind, Hok. split.
    + exists (out (scatter_plot_axes data_kwd basissets xlim ylim title
                     show_unknown)
              ++ out (when_given file_save (@SaveFig F)) ++ [Legend]).
      destruct file_save; cbn; now rewrite <- ?app_assoc.
    + exists (out (scatter_plot_axes data_kwd basissets xlim ylim title
                     show_unknown)
              ++ [Legend] ++ out (when_given file_save (@SaveFig F))).
      destruct file_save; cbn; now rewrite <- ?app_assoc.
Qed.

Lemma filter_all_iff {A} (p : A -> bool) (l : list A) :
  List.length (filter p l) = List.length l <-> forall x, In x l -> p x = true.
Proof.
  split.
  - intros H. apply forallb_forall. now apply filter_length_forallb.
  - intros H. now rewrite (forallb_filter_id p l (proj2 (forallb_forall p l) H)).
Qed.

(** X14.  The states of a basis set that [scatter_plot] plots are its
    bound, resonant and continuum states, together with its unknown states
    when [show_unknown] is set or when every state of the basis set is
    unknown.  Anti-bound and anti-resonant states are never plotted. *)
Theorem states_to_plot_spec (show_unknown : bool) (b : BasisSet F C)
    (s : State F C) :
  In s (states_to_plot show_unknown b)
  <-> In s b
      /\ match Siegert_type s with
         | Bound | Resonant | Continuum => True
         | Unknown =>
             show_unknown = true
             \/ (forall s', In s' b -> Siegert_type s' = Unknown)
         | Antibound | Antiresonant => False
         end.
Proof.
  assert (Hall : (len (unknown b) =? len b) = true
                 <-> (forall s', In s' b -> Siegert_type s' = Unknown)).
  { unfold len, unknown. rewrite Nat.eqb_eq, filter_all_iff.
    split; intros H s' Hs'; apply SiegpyFacts.has_type_spec; now apply H. }
  assert (Hmain : In s (add (add (bounds b) (resonants b)) (continuum b))
                  <-> In s b /\ always_plotted (Siegert_type s) = true).
  { unfold add, bounds, resonants, continuum.
    rewrite !in_app_iff, !SiegpyFacts.filter_by_type.
    destruct (Siegert_type s); simpl; intuition congruence. }
  assert (Hunk : In s (unknown b) <-> In s b /\ Siegert_type s = Unknown)
    by apply SiegpyFacts.filter_by_type.
  unfold states_to_plot.
  destruct (show_unknown || (len (unknown b) =? len b)) eqn:Hcond.
  - unfold add at 1. rewrite in_app_iff, Hmain, Hunk.
    apply orb_true_iff in Hcond. rewrite Hall in Hcond.
    destruct (Siegert_type s); simpl; intuition congruence.
  - rewrite Hmain. apply orb_false_iff in Hcond as [-> Hnot].
    assert (Hn : ~ (forall s', In s' b -> Siegert_type s' = Unknown)).
    { intros H. apply Hall in H. congruence. }
    destruct (Siegert_type s); simpl; intuition congruence.
Qed.

End Facts.

(** *** Runs on the symbolic scalars *)

Import Symbolic SymbolicFiles.

Lemma wavenumbers_is_good : ~ bad_data_kwd "wavenumbers".
Proof. intros [H _]. now apply H. Qed.

(** Five basis sets, the fifth with a bound state: IndexError. *)
Lemma scatter_plot_four_markers_witness :
  all_states five_sets <> []
  /\ ~ bad_data_kwd "wavenumbers"
  /\ (res (GaussianPotentials.scatter_plot "wavenumbers" five_sets
             None None None None false) = Raise IndexError
      <-> exists i b, nth_error five_sets i = Some b /\ 4 <= i
                      /\ states_to_plot false b <> [])
  /\ res (GaussianPotentials.scatter_plot "wavenumbers" five_sets
            None None None None false) = Raise IndexError.
Proof.
  assert (H1 : all_states five_sets <> []) by discriminate.
  split; [exact H1 |]. split; [exact wavenumbers_is_good |].
  split; [| reflexivity].
  exact (proj1 (scatter_plot_four_markers "wavenumbers" five_sets
                  None None None None false H1 wavenumbers_is_good)).
Defined.

(** One basis set and a file to save: the two orders of the last calls. *)
Lemma scatter_plot_copies_witness :
  res (GaussianPotentials.scatter_plot "wavenumbers" one_set
         None None None (Some "poles.pdf"%string) false) = Ok tt
  /\ exists before,
       out (GaussianPotentials.scatter_plot "wavenumbers" one_set
              None None None (Some "poles.pdf"%string) false)
       = before ++ [SaveFig "poles.pdf"; Legend; Show]
       /\ out (WoodsSaxon.scatter_plot "wavenumbers" one_set
                 None None None (Some "poles.pdf"%string) false)
          = before ++ [Legend; SaveFig "poles.pdf"; Show].
Proof.
  split; [reflexivity |].
  exact (proj2 (proj2 (scatter_plot_copies "wavenumbers" one_set
                         None None None (Some "poles.pdf"%string) false))
           "poles.pdf"%string eq_refl eq_refl).
Defined.

(** A bad keyword without a file to save: no legend, no figure shown; a
    good keyword with a file to save: the figure is shown last. *)
Lemma scatter_plot_closing_calls_witness :
  res (GaussianPotentials.scatter_plot "foo" one_set
         None None None None false)
  = Raise (ValueError (data_kwd_error "foo"))
  /\ Forall (fun ev => closing ev = false)
       (out (WoodsSaxon.scatter_plot "foo" one_set
               None None None None false))
  /\ res (GaussianPotentials.scatter_plot "energies" one_set
            None None None (Some "poles.pdf"%string) false) = Ok tt
  /\ exists before,
       out (WoodsSaxon.scatter_plot "energies" one_set
              None None None (Some "poles.pdf"%string) false)
       = before ++ [Show].
Proof.
  split; [reflexivity |]. split.
  - exact (proj2 (proj1 (scatter_plot_closing_calls "foo" one_set
                           None None None None false)
                    eq_refl _ eq_refl)).
  - split; [reflexivity |].
    exact (proj2 (proj2 (scatter_plot_closing_calls "energies" one_set
                           None None None (Some "poles.pdf"%string) false)
                    eq_refl)).
Defined.

End ScatterPlotMore.
